(** * zip.py: listing, creating, extracting and testing ZIP archives

    A shallow embedding of [src/zip.py] and a verification of its
    documented behaviour.

    The module is a thin layer over Python's [os] and [zipfile]
    modules.  Its own logic (argument trimming, the existence pre-check,
    the choice of the open mode, the textual computation of archive
    names, the file counter, the [try]/[except] funnels and the
    response dictionaries) is embedded statement by statement in
    [Module zip].  What it calls is modelled as far as the module can
    observe it:

    - Python strings are sequences of code points below 256
      ([string]); [str.strip], [str.split], [str.replace], [str] of an
      integer, [os.path.join] and [os.path.normpath] follow CPython on
      a POSIX host;
    - the file system is a tree of directories and regular files
      without symbolic links or permissions, the working directory
      being the root; a path is resolved component by component the
      way POSIX does;
    - a regular file is seen through the archive library: either its
      bytes are no ZIP container ([Raw]) or they are a container with
      a sequence of members ([Zip]); a member is written with the
      time stamp its header can hold (no year before 1980, sixteen
      bits for the date and for the time, seconds in steps of two);
      the container encoding, the deflate codec, [repr], the clock,
      the place a directory lists a new name at and the writing of
      extracted members are external and enter as the fields of
      [Platform];
    - a Python exception is a value of [exn]; a statement that may
      raise returns a [result] together with the file system it
      leaves behind, and an operation returns [Ok] of its response
      dictionary, or [Raise] if an exception were to leave it;
    - arguments have the types of the docstrings: strings, and an
      integer for [overwrite].

    Outside the model: failures of the device, the time stamp of a
    directory that gains an entry (it keeps the one it had), what the
    target holds once a directory entry was refused because its date
    does not fit the header, and the bytes of the archive while it is
    being written (a source that is the archive itself is read as the
    empty file it is just after it was opened). *)

From Stdlib Require Import String Ascii List ZArith NArith Lia Bool.
From Stdlib Require Import DecimalString.
From Stdlib Require DecimalFacts DecimalPos DecimalZ.
Import ListNotations.

#[local] Open Scope list_scope.
#[local] Open Scope string_scope.

(** ** Python built-ins on strings *)

Module Py.

(** [str(n)] for an integer. *)
Definition str (n : Z) : string := NilZero.string_of_int (Z.to_int n).

(** [c.isspace()] for a code point below 256. *)
Definition isspace (c : ascii) : bool :=
  let n := nat_of_ascii c in
  (((9 <=? n) && (n <=? 13)) || ((28 <=? n) && (n <=? 32))
   || (n =? 133) || (n =? 160))%nat.

(** [s.lstrip()]. *)
Fixpoint lstrip (s : string) : string :=
  match s with
  | String c s' => if isspace c then lstrip s' else s
  | EmptyString => EmptyString
  end.

(** [s.rstrip()]: a character is dropped when it is white space and
    nothing but white space follows it. *)
Fixpoint rstrip (s : string) : string :=
  match s with
  | String c s' =>
      match rstrip s' with
      | EmptyString => if isspace c then EmptyString else String c EmptyString
      | r => String c r
      end
  | EmptyString => EmptyString
  end.

(** [s.strip()]. *)
Definition strip (s : string) : string := rstrip (lstrip s).

(** [s.split(sep)] for a one-character separator: the fields between
    the separators, empty fields included; never the empty list. *)
Fixpoint split (sep : ascii) (s : string) : list string :=
  match s with
  | EmptyString => [EmptyString]
  | String c s' =>
      if Ascii.eqb c sep then EmptyString :: split sep s'
      else match split sep s' with
           | f :: fs => String c f :: fs
           | [] => [String c EmptyString]
           end
  end.

(** [sep.join(parts)]. *)
Definition join (sep : string) (parts : list string) : string :=
  String.concat sep parts.

(** The scan of [str.replace] for a non-empty [old]: [skip] counts the
    characters of a match that are still to be dropped. *)
Fixpoint replace_scan (old new : string) (skip : nat) (s : string) : string :=
  match s with
  | EmptyString => EmptyString
  | String c s' =>
      match skip with
      | S k => replace_scan old new k s'
      | O =>
          if String.prefix old s
          then new ++ replace_scan old new (String.length old - 1) s'
          else String c (replace_scan old new 0 s')
      end
  end.

(** [str.replace(s, "", new)]: [new] before every character and at
    the end. *)
Fixpoint intersperse (new : string) (s : string) : string :=
  match s with
  | EmptyString => new
  | String c s' => new ++ String c (intersperse new s')
  end.

(** [str.replace(s, old, new)]: every occurrence of [old], found from
    left to right without overlap, becomes [new]. *)
Definition replace (s old new : string) : string :=
  match old with
  | EmptyString => intersperse new s
  | _ => replace_scan old new 0 s
  end.

(** [s.startswith(p)]. *)
Definition startswith (s p : string) : bool := String.prefix p s.

(** [s.endswith(p)]. *)
Definition endswith (s p : string) : bool :=
  (String.length p <=? String.length s)%nat
  && String.eqb (String.substring (String.length s - String.length p) (String.length p) s) p.

(** [s[len(p):]]. *)
Definition drop (n : nat) (s : string) : string :=
  String.substring n (String.length s - n) s.

(** Whether [c] occurs in [s]. *)
Fixpoint mem (c : ascii) (s : string) : bool :=
  match s with
  | EmptyString => false
  | String d s' => Ascii.eqb c d || mem c s'
  end.

(** [s[0:s.find(chr(0))]] when a NUL occurs, [s] otherwise. *)
Fixpoint until_nul (s : string) : string :=
  match s with
  | EmptyString => EmptyString
  | String c s' => if Ascii.eqb c Ascii.zero then EmptyString else String c (until_nul s')
  end.

End Py.

(** ** Exceptions *)

(** The exception classes the module tells apart.  [text] is what
    [str(err)] gives; [strerror] is the attribute of that name
    ([None] for an exception raised with a single argument). *)
Inductive exn : Type :=
| FileNotFoundError (strerror : option string) (text : string)
| FileExistsError (text : string)
| OtherError (text : string).

(** The outcome of a statement that may raise. *)
Inductive result (A : Type) : Type :=
| Ok (a : A)
| Raise (e : exn).
Arguments Ok {A} a.
Arguments Raise {A} e.

(** [for x in l: body], threading the loop state; the state reached
    when an exception leaves the loop is kept, since a [with] block
    still closes its archive then. *)
Fixpoint for_each {A S : Type} (body : A -> S -> S * option exn) (l : list A) (s : S)
  : S * option exn :=
  match l with
  | [] => (s, None)
  | a :: l' =>
      match body a s with
      | (s', None) => for_each body l' s'
      | (s', Some e) => (s', Some e)
      end
  end.

(** ** Archive members and files *)

(** [time.localtime(...)[0:6]]: year, month, day, hour, minute, second. *)
Definition datetime : Type := Z * Z * Z * Z * Z * Z.

(** The attributes of [zipfile.ZipInfo] the module reads. *)
Module ZipInfo.
Record t : Type := make {
  filename : string;
  file_size : N;
  compress_size : N;
  date_time : datetime
  }.
End ZipInfo.

(** A member of an archive: its header, and whether its stored data
    still agree with the header and the CRC ([testzip] reads every
    member to find out, and a member that does not makes the read
    raise [BadZipFile]; data that cannot be decoded at all are
    outside the model). *)
Record member : Type := Member {
  info : ZipInfo.t;
  intact : bool
}.

(** A regular file as [zipfile] sees it: bytes that are no ZIP
    container, or a ZIP container and its members in the order of the
    central directory. *)
Inductive fdata : Type :=
| Raw (bytes : list Byte.byte)
| Zip (members : list member).

(** The file system: a directory lists its entries by name. *)
#[warnings="-register-all"] Inductive node : Type :=
| File (mtime : datetime) (data : fdata)
| Dir (mtime : datetime) (entries : list (string * node)).

Definition is_file (n : node) : bool :=
  match n with File _ _ => true | Dir _ _ => false end.

Definition is_dir (n : node) : bool :=
  match n with File _ _ => false | Dir _ _ => true end.

(** The entry called [name] of a directory listing. *)
Fixpoint assoc (name : string) (es : list (string * node)) : option node :=
  match es with
  | [] => None
  | (k, v) :: es' => if String.eqb k name then Some v else assoc name es'
  end.

Definition node_mtime (n : node) : datetime :=
  match n with File t _ => t | Dir t _ => t end.

(** The listing with the entry [name] replaced by [v] where it is. *)
Fixpoint update (name : string) (v : node) (es : list (string * node))
  : list (string * node) :=
  match es with
  | [] => []
  | (k, w) :: es' =>
      if String.eqb k name then (k, v) :: es' else (k, w) :: update name v es'
  end.

(** [x] put at position [i] of a list, at its end when [i] is beyond
    it. *)
Definition insert_at {A : Type} (i : nat) (x : A) (l : list A) : list A :=
  (firstn i l ++ x :: skipn i l)%list.

(** The listing with the entry [name] set to [v]: replaced where it
    is.  Where a directory lists a new name is the host's affair:
    [place] gives the position from the names there are and the new
    name. *)
Definition set_entry (place : list string -> string -> nat)
    (name : string) (v : node) (es : list (string * node)) : list (string * node) :=
  match assoc name es with
  | Some _ => update name v es
  | None => insert_at (place (map fst es) name) (name, v) es
  end.

(** The node reached from [n] along the names [p]. *)
Fixpoint find (n : node) (p : list string) : option node :=
  match p with
  | [] => Some n
  | c :: p' =>
      match n with
      | Dir _ es =>
          match assoc c es with
          | Some m => find m p'
          | None => None
          end
      | File _ _ => None
      end
  end.

(** The tree with the node at [p] set to [f]; the directory that is to
    hold it must exist. *)
Fixpoint put (place : list string -> string -> nat) (n : node) (p : list string) (f : node)
  : option node :=
  match p with
  | [] => Some f
  | c :: p' =>
      match n with
      | Dir t es =>
          match assoc c es with
          | Some m =>
              match put place m p' f with
              | Some m' => Some (Dir t (set_entry place c m' es))
              | None => None
              end
          | None =>
              match p' with
              | [] => Some (Dir t (set_entry place c f es))
              | _ :: _ => None
              end
          end
      | File _ _ => None
      end
  end.

(** ** The [os] module on a POSIX host *)

Module Os.

Inductive errno : Type := ENOENT | EEXIST | ENOTDIR | EISDIR | EINVAL.

Definition plain (c : string) : bool :=
  negb (String.eqb c "" || String.eqb c "." || String.eqb c "..").

(** Path resolution: [cur] is the directory reached so far, innermost
    name first; every component is looked up in a directory. *)
Fixpoint descend (root : node) (cur : list string) (comps : list string)
  : errno + list string :=
  match comps with
  | [] => inr cur
  | c :: rest =>
      match find root (rev cur) with
      | Some (Dir _ _) =>
          if String.eqb c "" || String.eqb c "." then descend root cur rest
          else if String.eqb c ".." then descend root (tl cur) rest
          else match find root (rev (c :: cur)) with
               | Some _ => descend root (c :: cur) rest
               | None => inl ENOENT
               end
      | Some (File _ _) => inl ENOTDIR
      | None => inl ENOENT
      end
  end.

(** [os.stat(path)]: the node at [path], or why there is none. *)
Definition stat (root : node) (path : string) : errno + node :=
  if String.eqb path "" then inl ENOENT
  else if Py.mem Ascii.zero path then inl EINVAL
  else match descend root [] (Py.split "/" path) with
       | inl e => inl e
       | inr cur =>
           match find root (rev cur) with
           | Some n => inr n
           | None => inl ENOENT
           end
       end.

(** Where [path] leads: the names from the root to the node, without
    [.], [..] and empty components. *)
Definition locate (root : node) (path : string) : option (list string) :=
  if String.eqb path "" then None
  else if Py.mem Ascii.zero path then None
  else match descend root [] (Py.split "/" path) with
       | inl _ => None
       | inr cur =>
           match find root (rev cur) with
           | Some _ => Some (rev cur)
           | None => None
           end
       end.

Module path.

(** [os.path.exists(path)]. *)
Definition exists_ (root : node) (p : string) : bool :=
  match stat root p with inr _ => true | inl _ => false end.

(** [os.path.isfile(path)]. *)
Definition isfile (root : node) (p : string) : bool :=
  match stat root p with inr n => is_file n | inl _ => false end.

(** [os.path.join(a, b)]. *)
Definition join (a b : string) : string :=
  if Py.startswith b "/" then b
  else if String.eqb a "" || Py.endswith a "/" then a ++ b
  else a ++ "/" ++ b.

(** The loop of [normpath] over the components; [acc] is
    [new_comps], last component first. *)
Fixpoint norm_comps (initial_slashes : nat) (acc : list string) (comps : list string)
  : list string :=
  match comps with
  | [] => rev acc
  | comp :: rest =>
      if String.eqb comp "" || String.eqb comp "." then norm_comps initial_slashes acc rest
      else if negb (String.eqb comp "..")
              || (Nat.eqb initial_slashes 0 && match acc with [] => true | _ => false end)
              || match acc with last :: _ => String.eqb last ".." | [] => false end
           then norm_comps initial_slashes (comp :: acc) rest
           else norm_comps initial_slashes (tl acc) rest
  end.

(** [os.path.normpath(path)]. *)
Definition normpath (p : string) : string :=
  if String.eqb p "" then "."
  else
    let initial_slashes :=
      if Py.startswith p "/"
      then if Py.startswith p "//" && negb (Py.startswith p "///") then 2 else 1
      else 0 in
    let body := Py.join "/" (norm_comps initial_slashes [] (Py.split "/" p)) in
    let out := match initial_slashes with
               | 0 => body
               | 1 => "/" ++ body
               | _ => "//" ++ body
               end in
    if String.eqb out "" then "." else out.

End path.

(** The names of the sub-directories and of the other entries of a
    listing, in the order of the listing. *)
Definition dirnames (es : list (string * node)) : list string :=
  map fst (filter (fun e => is_dir (snd e)) es).

Definition filenames (es : list (string * node)) : list string :=
  map fst (filter (fun e => negb (is_dir (snd e))) es).

(** [os.walk] below a node: the directory first, then the walks of
    its sub-directories. *)
Fixpoint walk_node (top : string) (n : node) : list (string * list string * list string) :=
  match n with
  | File _ _ => []
  | Dir _ es =>
      (top, dirnames es, filenames es)
      :: flat_map (fun e => match snd e with
                            | Dir _ _ => walk_node (path.join top (fst e)) (snd e)
                            | File _ _ => []
                            end) es
  end.

(** [os.walk(top)]; a [top] that cannot be listed yields nothing. *)
Definition walk (root : node) (top : string) : list (string * list string * list string) :=
  match stat root top with
  | inr n => walk_node top n
  | inl _ => []
  end.

End Os.

(** ** What the host provides *)

(** The parts of the platform that are external to the module and to
    this development: [repr] of a string (it occurs in the text of
    library exceptions), the deflate codec, the byte image of a ZIP
    container, the clock that stamps a new file, the position at
    which a directory lists a new name (from the names it holds and
    the new one), and the writing of one extracted member below a
    directory ([ZipFile._extract_member]). *)
Class Platform : Type := {
  repr : string -> string;
  deflate : list Byte.byte -> list Byte.byte;
  container : list member -> list Byte.byte;
  clock : datetime;
  slot : list string -> string -> nat;
  extract_member : node -> member -> string -> node * option exn
}.

(** ** The [zipfile] module *)

Module Zipfile.
Section Zipfile.

Context {host : Platform}.

(** [str(err)] for an [OSError] with errno, strerror and filename. *)
Definition OSError_text (code : Z) (reason file : string) : string :=
  "[Errno " ++ Py.str code ++ "] " ++ reason ++ ": " ++ repr file.

Definition ENOENT_text : string := "No such file or directory".

(** The exception Python raises for a failed system call on [file]. *)
Definition os_error (e : Os.errno) (file : string) : exn :=
  match e with
  | Os.ENOENT => FileNotFoundError (Some ENOENT_text) (OSError_text 2 ENOENT_text file)
  | Os.EEXIST => FileExistsError (OSError_text 17 "File exists" file)
  | Os.ENOTDIR => OtherError (OSError_text 20 "Not a directory" file)
  | Os.EISDIR => OtherError (OSError_text 21 "Is a directory" file)
  | Os.EINVAL => OtherError "embedded null byte"
  end.

(** The open modes of [ZipFile]. *)
Inductive mode : Type := mode_r | mode_w | mode_x.

(** The components of a path without the empty ones at its end. *)
Fixpoint drop_trailing (comps : list string) : list string :=
  match comps with
  | [] => []
  | c :: rest =>
      match drop_trailing rest with
      | [] => if String.eqb c "" then [] else [c]
      | r => c :: r
      end
  end.

(** [io.open(path, 'w+b')] and [io.open(path, 'x+b')]: where the file
    is, and the file system with the file created or truncated.  A
    path that ends in a separator is refused once the directories
    before its last name are found ([EISDIR]), whether that name
    exists or not; a path of separators only, or one that ends in
    [.] or [..], names a directory. *)
Definition open_write (root : node) (path : string) (m : mode)
  : Os.errno + (node * list string) :=
  let excl := match m with mode_x => true | _ => false end in
  if String.eqb path "" then inl Os.ENOENT
  else if Py.mem Ascii.zero path then inl Os.EINVAL
  else
    let comps := Py.split "/" path in
    if String.eqb (last comps "") "" then
      match drop_trailing comps with
      | [] => inl (if excl then Os.EEXIST else Os.EISDIR)
      | comps' =>
          match Os.descend root [] (removelast comps') with
          | inl e => inl e
          | inr cur =>
              match find root (rev cur) with
              | Some (Dir _ _) =>
                  if Os.plain (last comps' "") then inl Os.EISDIR
                  else inl (if excl then Os.EEXIST else Os.EISDIR)
              | Some (File _ _) => inl Os.ENOTDIR
              | None => inl Os.ENOENT
              end
          end
      end
    else
    match Os.descend root [] (removelast comps) with
    | inl e => inl e
    | inr cur =>
        match find root (rev cur) with
        | Some (Dir _ _) =>
            let name := last comps "" in
            let target := rev (name :: cur) in
            let fresh := File clock (Raw []) in
            if Os.plain name then
              match find root target with
              | Some (Dir _ _) => inl (if excl then Os.EEXIST else Os.EISDIR)
              | Some (File _ _) =>
                  if excl then inl Os.EEXIST
                  else match put slot root target fresh with
                       | Some root' => inr (root', target)
                       | None => inl Os.ENOENT
                       end
              | None =>
                  match put slot root target fresh with
                  | Some root' => inr (root', target)
                  | None => inl Os.ENOENT
                  end
              end
            else inl (if excl then Os.EEXIST else Os.EISDIR)
        | Some (File _ _) => inl Os.ENOTDIR
        | None => inl Os.ENOENT
        end
    end.

(** A [ZipFile] open for writing: the name it was given, where its
    file is, and the members written so far. *)
Record ZipFile : Type := {
  zf_filename : string;
  fp : list string;
  filelist : list member
  }.

(** [ZipFile(filename, 'w' or 'x', ZIP_DEFLATED)]. *)
Definition ZipFile_write (root : node) (file : string) (m : mode)
  : result (node * ZipFile) :=
  match open_write root file m with
  | inl e => Raise (os_error e file)
  | inr (root', target) =>
      Ok (root', {| zf_filename := file; fp := target; filelist := [] |})
  end.

(** [ZipFile.close()] in a writing mode: the central directory is
    written and the file is a complete archive. *)
Definition close (root : node) (zf : ZipFile) : node :=
  match put slot root (fp zf) (File clock (Zip (filelist zf))) with
  | Some root' => root'
  | None => root
  end.

(** [ZipFile(filename)]: the members of an archive opened for
    reading. *)
Definition ZipFile_read (root : node) (file : string) : result (list member) :=
  match Os.stat root file with
  | inl e => Raise (os_error e file)
  | inr (Dir _ _) => Raise (os_error Os.EISDIR file)
  | inr (File _ (Raw _)) => Raise (OtherError "File is not a zip file")
  | inr (File _ (Zip ms)) => Ok ms
  end.

(** [while arcname[0] in (os.sep, os.altsep): arcname = arcname[1:]];
    indexing the empty string raises [IndexError]. *)
Fixpoint strip_seps (arcname : string) : result string :=
  match arcname with
  | EmptyString => Raise (OtherError "string index out of range")
  | String c rest => if Ascii.eqb c "/" then strip_seps rest else Ok arcname
  end.

(** The member name [ZipInfo.from_file] makes of [arcname]. *)
Definition member_name (arcname : string) (isdir : bool) : result string :=
  match strip_seps (Os.path.normpath arcname) with
  | Raise e => Raise e
  | Ok a => Ok (Py.until_nul (if isdir then a ++ "/" else a))
  end.

Definition bytes_of (d : fdata) : list Byte.byte :=
  match d with
  | Raw b => b
  | Zip ms => container ms
  end.

(** The date and the time of a member header:
    [(dt[0] - 1980) << 9 | dt[1] << 5 | dt[2]] and
    [dt[3] << 11 | dt[4] << 5 | (dt[5] // 2)]. *)
Definition dos_date (dt : datetime) : Z :=
  let '(y, mo, d, _, _, _) := dt in
  Z.lor (Z.lor (Z.shiftl (y - 1980) 9) (Z.shiftl mo 5)) d.

Definition dos_time (dt : datetime) : Z :=
  let '(_, _, _, h, mi, s) := dt in
  Z.lor (Z.lor (Z.shiftl h 11) (Z.shiftl mi 5)) (s / 2).

(** What [struct.pack] accepts for a field of format [H]. *)
Definition ushort (x : Z) : bool := ((0 <=? x) && (x <=? 65535))%Z.

(** The [date_time] read back from the two header fields. *)
Definition header_date_time (d t : Z) : datetime :=
  (Z.shiftr d 9 + 1980, Z.land (Z.shiftr d 5) 15, Z.land d 31,
   Z.shiftr t 11, Z.land (Z.shiftr t 5) 63, Z.land t 31 * 2)%Z.

(** The time stamp of a source as the archive keeps it: [ZipInfo]
    refuses a year before 1980 ([ValueError]), the header has sixteen
    bits for the date and sixteen for the time ([struct.error]
    beyond), and seconds are kept in steps of two. *)
Definition header_time (dt : datetime) : result datetime :=
  let '(y, _, _, _, _, _) := dt in
  if (y <? 1980)%Z
  then Raise (OtherError "ZIP does not support timestamps before 1980")
  else if ushort (dos_date dt) && ushort (dos_time dt)
       then Ok (header_date_time (dos_date dt) (dos_time dt))
       else Raise (OtherError "'H' format requires 0 <= number <= 65535").

(** [ZipFile.write(filename, arcname)]: the file is read, deflated
    and added under the name made of [arcname]; a directory becomes
    an entry without data. *)
Definition write (root : node) (file arcname : string) (zf : ZipFile)
  : ZipFile * option exn :=
  match Os.stat root file with
  | inl e => (zf, Some (os_error e file))
  | inr n =>
      match member_name arcname (is_dir n) with
      | Raise e => (zf, Some e)
      | Ok name =>
          match header_time (node_mtime n) with
          | Raise e => (zf, Some e)
          | Ok t =>
              let zinfo :=
                match n with
                | File _ d =>
                    ZipInfo.make name (N.of_nat (length (bytes_of d)))
                      (N.of_nat (length (deflate (bytes_of d)))) t
                | Dir _ _ => ZipInfo.make name 0 0 t
                end in
              ({| zf_filename := zf_filename zf;
                  fp := fp zf;
                  filelist := (filelist zf ++ [Member zinfo true])%list |}, None)
          end
      end
  end.

(** [ZipFile.getinfo(name)]: the member recorded last under [name];
    [KeyError] when there is none. *)
Fixpoint NameToInfo (ms : list member) (name : string) : option member :=
  match ms with
  | [] => None
  | m :: ms' =>
      match NameToInfo ms' name with
      | Some m' => Some m'
      | None => if String.eqb (ZipInfo.filename (info m)) name then Some m else None
      end
  end.

(** What the archive [ms] reads for its member [m] when it is opened
    by name, as [testzip] and [extractall] open it: the member
    recorded last under the name of [m]. *)
Definition opened (ms : list member) (m : member) : member :=
  match NameToInfo ms (ZipInfo.filename (info m)) with
  | Some m' => m'
  | None => m
  end.

(** The loop of [testzip] over the members [ms] of the archive
    [all]. *)
Fixpoint testzip_loop (all ms : list member) : option string :=
  match ms with
  | [] => None
  | m :: ms' =>
      if intact (opened all m) then testzip_loop all ms'
      else Some (ZipInfo.filename (info m))
  end.

(** [ZipFile.testzip()]: the name of the first member whose data are
    bad, or [None]. *)
Definition testzip (ms : list member) : option string := testzip_loop ms ms.

Definition getinfo (ms : list member) (name : string) : result member :=
  match NameToInfo ms name with
  | Some m => Ok m
  | None =>
      Raise (OtherError (repr ("There is no item named " ++ repr name ++ " in the archive")))
  end.

(** [ZipFile.extract(member, path)]. *)
Definition extract (root : node) (ms : list member) (name path : string)
  : node * option exn :=
  match getinfo ms name with
  | Raise e => (root, Some e)
  | Ok m => extract_member root m path
  end.

(** [ZipFile.extractall(path)]. *)
Definition extractall (root : node) (ms : list member) (path : string)
  : node * option exn :=
  for_each (fun m fs => extract_member fs (opened ms m) path) ms root.

End Zipfile.
End Zipfile.

(** ** The module [zip.py] *)

Module zip.

(** One element of the array [list] builds (keys ["filename"],
    ["filesize"], ["compress_size"], ["modified"]). *)
Module Entry.
Record t : Type := make {
  filename : string;
  filesize : N;
  compress_size : N;
  modified : string
    }.
End Entry.

(** The dictionary every operation returns.  [zipinfo] is the array
    [list] hands to [json.dumps]; the other operations have no such
    key. *)
Record response : Type := Response {
  status : string;
  message : string;
  zipinfo : option (Datatypes.list Entry.t)
  }.

(** [str(err)]. *)
Definition exn_text (e : exn) : string :=
  match e with
  | FileNotFoundError _ t => t
  | FileExistsError t => t
  | OtherError t => t
  end.

(** [str(x)] for an attribute that is a string or [None]. *)
Definition str_opt (x : option string) : string :=
  match x with
  | Some s => s
  | None => "None"
  end.

(** The truth value of [badfile]: [None] and the empty string are
    false. *)
Definition truthy (x : option string) : bool :=
  match x with
  | Some s => negb (String.eqb s "")
  | None => false
  end.

(** An [except] clause: the status and message it sets for an
    exception of its class, [None] for an exception it does not
    catch. *)
Definition clause : Type := exn -> option (string * string).

(** [except FileNotFoundError as err:] of [list], [extract],
    [extractall] and [test]. *)
Definition except_FileNotFoundError_strerror (filename : string) : clause :=
  fun e =>
    match e with
    | FileNotFoundError strerror _ => Some ("error", str_opt strerror ++ " " ++ filename)
    | _ => None
    end.

(** [except FileExistsError as err:] of [create]. *)
Definition except_FileExistsError : clause :=
  fun e =>
    match e with
    | FileExistsError _ => Some ("error", exn_text e)
    | _ => None
    end.

(** [except FileNotFoundError as err2:] of [create]. *)
Definition except_FileNotFoundError : clause :=
  fun e =>
    match e with
    | FileNotFoundError _ _ => Some ("error", "File not found: " ++ exn_text e)
    | _ => None
    end.

(** The bare [except:]. *)
Definition except_all : clause :=
  fun e => Some ("error", exn_text e).

(** The clauses of a [try] statement are tried in order; an exception
    none of them catches leaves the function. *)
Fixpoint handle (clauses : Datatypes.list clause) (e : exn) : result (string * string) :=
  match clauses with
  | [] => Raise e
  | c :: cs =>
      match c e with
      | Some sm => Ok sm
      | None => handle cs e
      end
  end.

(** The end of every operation: the outcome of the [try] block, sent
    through the [except] clauses when it is an exception, becomes
    the response dictionary. *)
Definition respond (clauses : Datatypes.list clause)
    (payload : option (Datatypes.list Entry.t))
    (outcome : result (string * string)) : result response :=
  match outcome with
  | Ok (st, msg) => Ok (Response st msg payload)
  | Raise e =>
      match handle clauses e with
      | Ok (st, msg) => Ok (Response st msg payload)
      | Raise e' => Raise e'
      end
  end.

(** [_formateDateTime(dt)]. *)
Definition _formateDateTime (dt : datetime) : string :=
  let '(dt0, dt1, dt2, dt3, dt4, dt5) := dt in
  Py.str dt0 ++ "-" ++ Py.str dt1 ++ "-" ++ Py.str dt2 ++ " "
  ++ Py.str dt3 ++ ":" ++ Py.str dt4 ++ ":" ++ Py.str dt5.

Section Operations.

Context {host : Platform}.

(** The dictionary [x] of [list] for one [info]. *)
Definition entry_of (m : member) : Entry.t :=
  Entry.make (ZipInfo.filename (info m)) (ZipInfo.file_size (info m))
    (ZipInfo.compress_size (info m)) (_formateDateTime (ZipInfo.date_time (info m))).

(** The pre-check of [create]: the first source that does not exist
    raises [FileNotFoundError(item)]. *)
Definition check_sources (fs : node) (list_source : Datatypes.list string) : option exn :=
  snd (for_each
         (fun item (_ : unit) =>
            let item := Py.strip item in
            if negb (Os.path.exists_ fs item)
            then (tt, Some (FileNotFoundError None item))
            else (tt, None))
         list_source tt).

(** [myzip.write(filePath, str.replace(filePath, root, ''))]; [count]
    tells whether [filecnt] is incremented after it. *)
Definition add_path (fs : node) (root : string) (count : bool) (filePath : string)
    (st : Zipfile.ZipFile * nat) : (Zipfile.ZipFile * nat) * option exn :=
  let '(myzip, filecnt) := st in
  let archivepath := Py.replace filePath root "" in
  match Zipfile.write fs filePath archivepath myzip with
  | (myzip', None) => ((myzip', if count then filecnt + 1 else filecnt), None)
  | (myzip', Some e) => ((myzip', filecnt), Some e)
  end.

(** The body of the loop over [os.walk(item)]: the files of the
    directory, counted, then its sub-directories, not counted. *)
Definition add_directory (fs : node) (root : string)
    (triple : string * Datatypes.list string * Datatypes.list string)
    (st : Zipfile.ZipFile * nat) : (Zipfile.ZipFile * nat) * option exn :=
  let '(dirpath, dirnames, filenames) := triple in
  match for_each (fun name => add_path fs root true (Os.path.join dirpath name))
          filenames st with
  | (st', Some e) => (st', Some e)
  | (st', None) =>
      for_each (fun name => add_path fs root false (Os.path.join dirpath name))
        dirnames st'
  end.

(** The body of the loop over [list_source] inside the [with]
    block. *)
Definition add_source (fs : node) (root : string) (item : string)
    (st : Zipfile.ZipFile * nat) : (Zipfile.ZipFile * nat) * option exn :=
  let item := Py.strip item in
  if Os.path.isfile fs item
  then add_path fs root true item st
  else for_each (add_directory fs root) (Os.walk fs item) st.

(** The open mode [create] chooses. *)
Definition mode_of (overwrite : Z) : Zipfile.mode :=
  if (overwrite =? 0)%Z then Zipfile.mode_x else Zipfile.mode_w.


(** [create(filename, source, root, overwrite)]: the response and the
    file system after the call. *)
Definition create (fs : node) (filename source root : string) (overwrite : Z)
  : result response * node :=
  let filecnt := 0 in
  let filename := Py.strip filename in
  let mode := mode_of overwrite in
  let list_source := Py.split ";" source in
  let '(outcome, fs') :=
    match check_sources fs list_source with
    | Some e => (Raise e, fs)
    | None =>
        match Zipfile.ZipFile_write fs filename mode with
        | Raise e => (Raise e, fs)
        | Ok (fs1, myzip) =>
            match for_each (add_source fs1 root) list_source (myzip, filecnt) with
            | ((myzip', _), Some e) => (Raise e, Zipfile.close fs1 myzip')
            | ((myzip', filecnt'), None) =>
                (Ok ("ok",
                     Py.str (Z.of_nat filecnt') ++ " files written to archive " ++ filename),
                 Zipfile.close fs1 myzip')
            end
        end
    end in
  (respond [except_FileExistsError; except_FileNotFoundError; except_all] None outcome,
   fs').


(** [extract(filename, member, path)]. *)
Definition extract (fs : node) (filename member path : string)
  : result response * node :=
  let filename := Py.strip filename in
  let '(outcome, fs') :=
    match Zipfile.ZipFile_read fs filename with
    | Raise e => (Raise e, fs)
    | Ok myzip =>
        match Zipfile.extract fs myzip member path with
        | (fs', Some e) => (Raise e, fs')
        | (fs', None) => (Ok ("ok", "Extracted " ++ member ++ " to " ++ path), fs')
        end
    end in
  (respond [except_FileNotFoundError_strerror filename; except_all] None outcome, fs').

(** [extractall(filename, path)]. *)
Definition extractall (fs : node) (filename path : string)
  : result response * node :=
  let filename := Py.strip filename in
  let '(outcome, fs') :=
    match Zipfile.ZipFile_read fs filename with
    | Raise e => (Raise e, fs)
    | Ok myzip =>
        match Zipfile.extractall fs myzip path with
        | (fs', Some e) => (Raise e, fs')
        | (fs', None) => (Ok ("ok", "Extracted " ++ filename ++ " to " ++ path), fs')
        end
    end in
  (respond [except_FileNotFoundError_strerror filename; except_all] None outcome, fs').

(** [test(filename)]; it reads only. *)
Definition test (fs : node) (filename : string) : result response :=
  let filename := Py.strip filename in
  let outcome :=
    match Zipfile.ZipFile_read fs filename with
    | Raise e => Raise e
    | Ok myzip =>
        let badfile := Zipfile.testzip myzip in
        if truthy badfile
        then Ok ("error", match badfile with Some name => name | None => "" end)
        else Ok ("ok", "Test passed for " ++ filename)
    end in
  respond [except_FileNotFoundError_strerror filename; except_all] None outcome.

(** [list(filename)]; it reads only. *)
Definition list (fs : node) (filename : string) : result response :=
  let filename := Py.strip filename in
  match Zipfile.ZipFile_read fs filename with
  | Ok myzip =>
      respond [except_FileNotFoundError_strerror filename; except_all]
        (Some (map entry_of myzip)) (Ok ("ok", filename))
  | Raise e =>
      respond [except_FileNotFoundError_strerror filename; except_all]
        (Some []) (Raise e)
  end.

End Operations.
End zip.


(** ** Notions used in the statements *)

(** [r'] has every node of [r], a directory where [r] has one and a
    file where [r] has one. *)
Definition extends (r r' : node) : Prop :=
  forall q n, find r q = Some n ->
    exists n', find r' q = Some n' /\ is_dir n' = is_dir n.

(** The sources of a call, trimmed as both loops of [create] trim
    them. *)
Definition sources_of (source : string) : list string :=
  map Py.strip (Py.split ";" source).

(** The member name of a source that is a regular file. *)
Definition arcname (root item : string) : result string :=
  Zipfile.member_name (Py.replace item root "") false.

(** The names of the members of an archive, in its order. *)
Definition names_of (ms : list member) : list string :=
  map (fun m => ZipInfo.filename (info m)) ms.

(** A response carries one of the two status words. *)
Definition uniform (r : zip.response) : Prop :=
  zip.status r = "ok" \/ zip.status r = "error".





(** A decimal numeral without padding: it is ["0"] or does not begin
    with the digit zero. *)
Definition unpadded (s : string) : Prop :=
  s = "0" \/ Py.startswith s "0" = false.

(** A decimal digit, and a string of decimal digits. *)
Definition is_digit (c : ascii) : bool :=
  let n := nat_of_ascii c in ((48 <=? n) && (n <=? 57))%nat.

Fixpoint all_digits (s : string) : bool :=
  match s with
  | EmptyString => true
  | String c s' => is_digit c && all_digits s'
  end.

(** A time stamp whose six components are natural numbers. *)
Definition natural_time (dt : datetime) : Prop :=
  let '(y, mo, d, h, mi, s) := dt in
  (0 <= y /\ 0 <= mo /\ 0 <= d /\ 0 <= h /\ 0 <= mi /\ 0 <= s)%Z.

(** A name a directory can hold: not empty, not [.] or [..], without
    separator and without NUL. *)
Definition good_name (k : string) : bool :=
  Os.plain k && negb (Py.mem "/" k) && negb (Py.mem Ascii.zero k).






(** A time stamp the archive can keep. *)
Definition storable (dt : datetime) : bool :=
  match Zipfile.header_time dt with
  | Ok _ => true
  | Raise _ => false
  end.

(** A file system all of whose time stamps the archive can keep. *)
Fixpoint dated (n : node) : bool :=
  storable (node_mtime n)
  && match n with
     | File _ _ => true
     | Dir _ es => forallb (fun e => dated (snd e)) es
     end.

(** A time stamp of the calendar within the years a ZIP header has
    room for; [time.localtime] counts up to 61 seconds. *)
Definition calendar (dt : datetime) : Prop :=
  let '(y, mo, d, h, mi, s) := dt in
  (1980 <= y <= 2107 /\ 1 <= mo <= 12 /\ 1 <= d <= 31 /\
   0 <= h <= 23 /\ 0 <= mi <= 59 /\ 0 <= s <= 61)%Z.

(** The [n] integers from [lo] on. *)
Definition zrange (lo : Z) (n : nat) : list Z :=
  map (fun i => (lo + Z.of_nat i)%Z) (seq 0 n).

(** The header field of a date fits sixteen bits and gives the date
    back. *)
Definition date_kept (y mo d : Z) : bool :=
  let x := Zipfile.dos_date (y, mo, d, 0, 0, 0)%Z in
  (Zipfile.ushort x && (Z.shiftr x 9 + 1980 =? y) && (Z.land (Z.shiftr x 5) 15 =? mo)
   && (Z.land x 31 =? d))%Z.

(** The header field of a time fits sixteen bits and gives the time
    back, the seconds rounded down to an even number. *)
Definition time_kept (h mi s : Z) : bool :=
  let x := Zipfile.dos_time (0, 0, 0, h, mi, s)%Z in
  (Zipfile.ushort x && (Z.shiftr x 11 =? h) && (Z.land (Z.shiftr x 5) 63 =? mi)
   && (Z.land x 31 * 2 =? 2 * (s / 2)))%Z.

(** A host to run the scenarios on: strings print between single
    quotes, data are stored as they are, a new file is listed first
    in its directory, and extraction leaves the file system alone. *)
Definition sample_time : datetime := (2024, 1, 5, 9, 3, 7)%Z.

Definition sample_host : Platform := {|
  repr := fun s => "'" ++ s ++ "'";
  deflate := fun b => b;
  container := fun _ => [];
  clock := sample_time;
  slot := fun _ _ => 0;
  extract_member := fun fs _ _ => (fs, None)
|}.

(** A file system with [/data/a.txt], [/data/sub/b.txt], an empty
    directory [/tmp] and an archive [/old.zip] whose second member is
    damaged. *)
Definition sample_fs : node :=
  Dir sample_time
    [("data", Dir sample_time
                [("a.txt", File sample_time (Raw [Byte.x68; Byte.x69]));
                 ("sub", Dir sample_time [("b.txt", File sample_time (Raw []))])]);
     ("tmp", Dir sample_time []);
     ("old.zip", File sample_time
                   (Zip [Member (ZipInfo.make "x" 1 1 sample_time) true;
                         Member (ZipInfo.make "y" 2 2 sample_time) false;
                         Member (ZipInfo.make "z" 3 3 sample_time) false]))].

(** A file system in which the name of the root directory [/data]
    occurs a second time below it. *)
Definition nested_fs : node :=
  Dir sample_time
    [("data", Dir sample_time
                [("x", Dir sample_time
                         [("data", Dir sample_time
                                     [("a.txt", File sample_time (Raw [Byte.x68]))])])]);
     ("tmp", Dir sample_time [])].

(** A file system with a file [/old.txt] last changed in 1979. *)
Definition dusty_fs : node :=
  Dir sample_time
    [("old.txt", File (1979, 12, 31, 23, 59, 58)%Z (Raw [Byte.x68]));
     ("tmp", Dir sample_time [])].

(** An archive [/bad.zip] whose first damaged member has the empty
    name; a later member is damaged too. *)
Definition damaged_members : list member :=
  [Member (ZipInfo.make "readme.txt" 4 4 sample_time) true;
   Member (ZipInfo.make "" 1 1 sample_time) false;
   Member (ZipInfo.make "late.txt" 2 2 sample_time) false].

Definition damaged_fs : node :=
  Dir sample_time [("bad.zip", File sample_time (Zip damaged_members))].

(** * Properties *)

(** ** The built-ins on examples *)

Example strip_examples :
  Py.strip "  /data/a.txt " = "/data/a.txt" /\ Py.strip "a b" = "a b" /\ Py.strip "   " = "".
Proof. repeat split. Qed.

Example split_examples :
  Py.split ";" "a;b;;c;" = ["a"; "b"; ""; "c"; ""] /\ Py.split ";" "" = [""].
Proof. repeat split. Qed.

Example replace_examples :
  Py.replace "/data/x/data/a.txt" "/data" "" = "/x/a.txt" /\
  Py.replace "aaa" "aa" "" = "a" /\
  Py.replace "abc" "" "" = "abc" /\
  Py.replace "ab" "" "-" = "-a-b-".
Proof. repeat split. Qed.

Example str_examples :
  Py.str 2024 = "2024" /\ Py.str 0 = "0" /\ Py.str (-3) = "-3".
Proof. repeat split. Qed.

Example join_examples :
  Os.path.join "/data" "x" = "/data/x" /\ Os.path.join "/data/" "x" = "/data/x" /\
  Os.path.join "" "x" = "x" /\ Os.path.join "a" "/x" = "/x".
Proof. repeat split. Qed.

Example normpath_examples :
  Os.path.normpath "//a/./b/../c//" = "//a/c" /\ Os.path.normpath "///a/.." = "/" /\
  Os.path.normpath "../a/../.." = "../.." /\ Os.path.normpath "/.." = "/" /\
  Os.path.normpath "" = "." /\ Os.path.normpath "a//b/" = "a/b".
Proof. repeat split. Qed.

Example member_name_examples :
  Zipfile.member_name "/a.txt" false = Ok "a.txt" /\
  Zipfile.member_name "/sub" true = Ok "sub/" /\
  Zipfile.member_name "" false = Ok "." /\
  Zipfile.member_name "/" false = Raise (OtherError "string index out of range").
Proof. repeat split. Qed.

Example walk_example :
  Os.walk sample_fs "/data"
  = [("/data", ["sub"], ["a.txt"]); ("/data/sub", [], ["b.txt"])].
Proof. reflexivity. Qed.

(** ** Directory listings and trees *)

Lemma assoc_app k a b :
  assoc k (a ++ b)%list = match assoc k a with Some x => Some x | None => assoc k b end.
Proof.
  induction a as [|[k' w] a IH]; simpl; [reflexivity|].
  destruct (String.eqb k' k); [reflexivity | exact IH].
Qed.

Lemma assoc_update_same name v es :
  assoc name es <> None -> assoc name (update name v es) = Some v.
Proof.
  induction es as [|[k w] es IH]; simpl; [congruence|].
  destruct (String.eqb k name) eqn:E; simpl; rewrite E; auto.
Qed.

Lemma assoc_update_other name k v es :
  k <> name -> assoc k (update name v es) = assoc k es.
Proof.
  intros Hk. induction es as [|[k' w] es IH]; simpl; [reflexivity|].
  destruct (String.eqb_spec k' name) as [->|Hn]; simpl.
  - destruct (String.eqb_spec name k); [congruence | reflexivity].
  - destruct (String.eqb k' k); auto.
Qed.

Lemma assoc_insert_same i name v es :
  assoc name es = None -> assoc name (insert_at i (name, v) es) = Some v.
Proof.
  intros H. unfold insert_at. rewrite assoc_app.
  rewrite <- (firstn_skipn i es), assoc_app in H.
  destruct (assoc name (firstn i es)); [discriminate|].
  simpl. now rewrite String.eqb_refl.
Qed.

Lemma assoc_insert_other i name k v es :
  k <> name -> assoc k (insert_at i (name, v) es) = assoc k es.
Proof.
  intros Hk. unfold insert_at. rewrite assoc_app. simpl.
  destruct (String.eqb_spec name k); [congruence|].
  transitivity (assoc k (firstn i es ++ skipn i es)%list);
    [now rewrite assoc_app | now rewrite firstn_skipn].
Qed.

Section Trees.

Context {place : list string -> string -> nat}.

Lemma assoc_set_entry_same name v es : assoc name (set_entry place name v es) = Some v.
Proof.
  unfold set_entry. destruct (assoc name es) eqn:E.
  - apply assoc_update_same. congruence.
  - now apply assoc_insert_same.
Qed.

Lemma assoc_set_entry_other name k v es :
  k <> name -> assoc k (set_entry place name v es) = assoc k es.
Proof.
  intros Hk. unfold set_entry. destruct (assoc name es).
  - now apply assoc_update_other.
  - now apply assoc_insert_other.
Qed.

Lemma find_put p : forall r f r', put place r p f = Some r' -> find r' p = Some f.
Proof.
  induction p as [|c p IH]; simpl; intros r f r' H.
  - now inversion H.
  - destruct r as [|t es]; [discriminate|].
    destruct (assoc c es) as [m|] eqn:Ea.
    + destruct (put place m p f) as [m'|] eqn:Ep; [|discriminate].
      inversion H; subst; simpl. rewrite assoc_set_entry_same. eauto.
    + destruct p; [|discriminate]. inversion H; subst; simpl.
      now rewrite assoc_set_entry_same.
Qed.

Lemma put_extends p : forall r f r',
  put place r p f = Some r' -> is_dir f = false ->
  (forall n, find r p = Some n -> is_dir n = false) ->
  extends r r'.
Proof.
  induction p as [|c p IH]; simpl; intros r f r' H Hf Hold q n Hq.
  - inversion H; subst. specialize (Hold r eq_refl).
    destruct r; [|discriminate]. destruct q; simpl in Hq; [|discriminate].
    inversion Hq; subst. exists r'. simpl. auto.
  - destruct r as [|t es]; [discriminate|].
    destruct q as [|k q].
    + simpl in Hq. inversion Hq; subst.
      destruct (assoc c es) as [m|]; [destruct (put place m p f); [|discriminate]
                                     | destruct p; [|discriminate]];
        inversion H; subst; eexists; simpl; split; reflexivity.
    + simpl in Hq. destruct (String.eqb_spec k c) as [->|Hk].
      * destruct (assoc c es) as [m|] eqn:Ea; [|discriminate].
        destruct (put place m p f) as [m'|] eqn:Ep; [|discriminate].
        inversion H; subst. simpl. rewrite assoc_set_entry_same.
        eapply IH; eauto.
      * assert (Hr : exists es', r' = Dir t es' /\ assoc k es' = assoc k es).
        { destruct (assoc c es) as [m|]; [destruct (put place m p f); [|discriminate]
                                         | destruct p; [|discriminate]];
            inversion H; subst; eexists; split; try reflexivity;
            now apply assoc_set_entry_other. }
        destruct Hr as (es' & -> & Hes). simpl. rewrite Hes.
        destruct (assoc k es); [|discriminate]. eauto.
Qed.

Lemma put_on_file p : forall r n f,
  find r p = Some n -> exists r', put place r p f = Some r'.
Proof.
  induction p as [|c p IH]; simpl; intros r n f H; [eauto|].
  destruct r as [|t es]; [discriminate|].
  destruct (assoc c es) as [m|]; [|discriminate].
  destruct (IH _ _ f H) as [m' ->]. eauto.
Qed.

End Trees.

Lemma extends_trans r1 r2 r3 : extends r1 r2 -> extends r2 r3 -> extends r1 r3.
Proof.
  intros H12 H23 q n H. destruct (H12 _ _ H) as (n2 & H2 & E2).
  destruct (H23 _ _ H2) as (n3 & H3 & E3). exists n3. split; congruence.
Qed.

(** ** Path resolution *)

Lemma split_nonempty sep s : Py.split sep s <> [].
Proof.
  destruct s as [|c s]; simpl; [discriminate|].
  destruct (Ascii.eqb c sep); [discriminate|].
  destruct (Py.split sep s); discriminate.
Qed.

Lemma descend_app root a : forall cur b,
  Os.descend root cur (a ++ b)%list =
  match Os.descend root cur a with
  | inl e => inl e
  | inr c => Os.descend root c b
  end.
Proof.
  induction a as [|c a IH]; simpl; intros cur b; [reflexivity|].
  destruct (find root (rev cur)) as [[|]|]; try reflexivity.
  destruct (String.eqb c "" || String.eqb c "."); [apply IH|].
  destruct (String.eqb c ".."); [apply IH|].
  destruct (find root (rev cur ++ [c])%list); [apply IH | reflexivity].
Qed.

Lemma extends_dir r r' q t es :
  extends r r' -> find r q = Some (Dir t es) -> exists t' es', find r' q = Some (Dir t' es').
Proof.
  intros H Hq. destruct (H _ _ Hq) as ([|t' es'] & Hf & E); [discriminate | eauto].
Qed.

Lemma descend_extends r r' comps : extends r r' ->
  forall cur c, Os.descend r cur comps = inr c -> Os.descend r' cur comps = inr c.
Proof.
  intros Hx. induction comps as [|x comps IH]; simpl; intros cur c H; [exact H|].
  destruct (find r (rev cur)) as [[|t es]|] eqn:Ecur; try discriminate.
  destruct (extends_dir _ _ _ _ _ Hx Ecur) as (t' & es' & ->).
  destruct (String.eqb x "" || String.eqb x "."); [auto|].
  destruct (String.eqb x ".."); [auto|].
  destruct (find r (rev cur ++ [x])%list) as [n|] eqn:En; [|discriminate].
  destruct (Hx _ _ En) as (n' & -> & _). auto.
Qed.

Lemma stat_extends r r' p n : extends r r' ->
  Os.stat r p = inr n -> exists n', Os.stat r' p = inr n' /\ is_dir n' = is_dir n.
Proof.
  unfold Os.stat. intros Hx H.
  destruct (String.eqb p ""); [discriminate|].
  destruct (Py.mem Ascii.zero p); [discriminate|].
  destruct (Os.descend r [] (Py.split "/" p)) as [e|c] eqn:Ed; [discriminate|].
  rewrite (descend_extends _ _ _ Hx _ _ Ed).
  destruct (find r (rev c)) as [m|] eqn:Ef; [|discriminate].
  inversion H; subst. destruct (Hx _ _ Ef) as (n' & -> & E). eauto.
Qed.

Lemma isfile_extends r r' p : extends r r' ->
  Os.path.isfile r p = true -> Os.path.isfile r' p = true.
Proof.
  unfold Os.path.isfile. intros Hx H.
  destruct (Os.stat r p) as [|n] eqn:E; [discriminate|].
  destruct (stat_extends _ _ _ _ Hx E) as (n' & -> & Ed).
  destruct n, n'; simpl in *; congruence.
Qed.

(** A path whose last component is a plain name resolves to the entry
    of that name in the directory the rest of the path leads to. *)
Lemma stat_last r p cur f :
  String.eqb p "" = false -> Py.mem Ascii.zero p = false ->
  Os.descend r [] (removelast (Py.split "/" p)) = inr cur ->
  (exists t es, find r (rev cur) = Some (Dir t es)) ->
  Os.plain (last (Py.split "/" p) "") = true ->
  find r (rev (last (Py.split "/" p) "" :: cur)) = Some f ->
  Os.stat r p = inr f.
Proof.
  intros Hp Hz Hd (t & es & Hcur) Hpl Hf. unfold Os.stat. rewrite Hp, Hz.
  rewrite (app_removelast_last "" (split_nonempty "/" p)) at 1.
  rewrite descend_app, Hd. simpl. rewrite Hcur.
  unfold Os.plain in Hpl. apply negb_true_iff in Hpl.
  apply orb_false_iff in Hpl as [Hpl Hdd]. rewrite Hpl, Hdd.
  simpl in Hf. rewrite Hf. simpl. now rewrite Hf.
Qed.

Lemma locate_last r p cur f :
  String.eqb p "" = false -> Py.mem Ascii.zero p = false ->
  Os.descend r [] (removelast (Py.split "/" p)) = inr cur ->
  (exists t es, find r (rev cur) = Some (Dir t es)) ->
  Os.plain (last (Py.split "/" p) "") = true ->
  find r (rev (last (Py.split "/" p) "" :: cur)) = Some f ->
  Os.locate r p = Some (rev (last (Py.split "/" p) "" :: cur)).
Proof.
  intros Hp Hz Hd (t & es & Hcur) Hpl Hf. unfold Os.locate. rewrite Hp, Hz.
  rewrite (app_removelast_last "" (split_nonempty "/" p)) at 1.
  rewrite descend_app, Hd. simpl. rewrite Hcur.
  unfold Os.plain in Hpl. apply negb_true_iff in Hpl.
  apply orb_false_iff in Hpl as [Hpl Hdd]. rewrite Hpl, Hdd.
  simpl in Hf. rewrite Hf. simpl. now rewrite Hf.
Qed.

(** Conversely, a path that resolves has its parent resolved. *)
Lemma stat_inv r p n :
  Os.stat r p = inr n ->
  String.eqb p "" = false /\ Py.mem Ascii.zero p = false /\
  exists cur t es,
    Os.descend r [] (removelast (Py.split "/" p)) = inr cur /\
    find r (rev cur) = Some (Dir t es) /\
    (Os.plain (last (Py.split "/" p) "") = true ->
     find r (rev (last (Py.split "/" p) "" :: cur)) = Some n).
Proof.
  unfold Os.stat. intros H.
  destruct (String.eqb p "") eqn:Hp; [discriminate|].
  destruct (Py.mem Ascii.zero p) eqn:Hz; [discriminate|].
  do 2 (split; [reflexivity|]).
  rewrite (app_removelast_last "" (split_nonempty "/" p)) in H at 1.
  rewrite descend_app in H.
  destruct (Os.descend r [] (removelast (Py.split "/" p))) as [e|cur]; [discriminate|].
  simpl in H. destruct (find r (rev cur)) as [[|t es]|] eqn:Ecur; try discriminate.
  exists cur, t, es. split; [reflexivity|]. split; [exact Ecur|]. intros Hpl.
  unfold Os.plain in Hpl. apply negb_true_iff in Hpl.
  apply orb_false_iff in Hpl as [Hpl Hdd]. rewrite Hpl, Hdd in H.
  simpl. destruct (find r (rev cur ++ [last (Py.split "/" p) ""])%list) eqn:Ef;
    [|discriminate].
  simpl in H. rewrite Ef in H. now inversion H.
Qed.

(** ** Time stamps the archive can keep *)

Lemma dated_node n : dated n = true -> storable (node_mtime n) = true.
Proof. destruct n; simpl; intros H; now apply andb_true_iff in H as [H _]. Qed.

Lemma dated_assoc c es : forall m,
  forallb (fun e => dated (snd e)) es = true -> assoc c es = Some m -> dated m = true.
Proof.
  induction es as [|[k v] es IH]; simpl; intros m H Ha; [discriminate|].
  apply andb_true_iff in H as [Hv Hes].
  destruct (String.eqb k c); [now inversion Ha; subst | eauto].
Qed.

Lemma dated_find p : forall r n,
  dated r = true -> find r p = Some n -> dated n = true.
Proof.
  induction p as [|c p IH]; simpl; intros r n Hr H.
  - now inversion H; subst.
  - destruct r as [|t es]; [discriminate|].
    destruct (assoc c es) as [m|] eqn:Ea; [|discriminate].
    simpl in Hr. apply andb_true_iff in Hr as [_ Hes].
    eapply IH; [|exact H]. eapply dated_assoc; eauto.
Qed.

(** In a tree of such time stamps every file and directory that a path
    leads to has one. *)
Lemma dated_stat r p n :
  dated r = true -> Os.stat r p = inr n -> storable (node_mtime n) = true.
Proof.
  intros Hr. unfold Os.stat.
  destruct (String.eqb p ""); [discriminate|].
  destruct (Py.mem Ascii.zero p); [discriminate|].
  destruct (Os.descend r [] (Py.split "/" p)) as [e|cur]; [discriminate|].
  destruct (find r (rev cur)) as [k|] eqn:Ek; [|discriminate].
  intros H. inversion H; subst. apply dated_node. eapply dated_find; eauto.
Qed.

Lemma dated_update c v es :
  forallb (fun e => dated (snd e)) es = true -> dated v = true ->
  forallb (fun e => dated (snd e)) (update c v es) = true.
Proof.
  induction es as [|[k w] es IH]; simpl; intros H Hv; [reflexivity|].
  apply andb_true_iff in H as [Hw Hes].
  destruct (String.eqb k c); simpl; rewrite ?Hv, ?Hw, ?Hes; auto.
Qed.

Lemma dated_set_entry place c v es :
  forallb (fun e => dated (snd e)) es = true -> dated v = true ->
  forallb (fun e => dated (snd e)) (set_entry place c v es) = true.
Proof.
  intros H Hv. unfold set_entry. destruct (assoc c es); [now apply dated_update|].
  unfold insert_at. rewrite forallb_app. simpl. rewrite Hv. simpl.
  rewrite <- forallb_app, firstn_skipn. exact H.
Qed.

Lemma dated_put place p : forall r f r',
  dated r = true -> dated f = true -> put place r p f = Some r' -> dated r' = true.
Proof.
  induction p as [|c p IH]; simpl; intros r f r' Hr Hf H.
  - now inversion H; subst.
  - destruct r as [|t es]; [discriminate|]. simpl in Hr.
    apply andb_true_iff in Hr as [Ht Hes].
    destruct (assoc c es) as [m|] eqn:Ea.
    + destruct (put place m p f) as [m'|] eqn:Ep; [|discriminate].
      inversion H; subst. simpl. rewrite Ht. simpl.
      apply dated_set_entry; [exact Hes|].
      eapply IH; [|exact Hf|exact Ep]. eapply dated_assoc; eauto.
    + destruct p; [|discriminate]. inversion H; subst. simpl. rewrite Ht. simpl.
      now apply dated_set_entry.
Qed.

(** ** Opening and closing the archive *)

Lemma plain_not_empty name : Os.plain name = true -> String.eqb name "" = false.
Proof.
  unfold Os.plain. intros H. apply negb_true_iff in H.
  apply orb_false_iff in H as [H _]. now apply orb_false_iff in H as [H _].
Qed.

(** A path that leads to a regular file ends in a plain name. *)
Lemma stat_file_plain root p t d :
  Os.stat root p = inr (File t d) -> Os.plain (last (Py.split "/" p) "") = true.
Proof.
  intros Es. destruct (stat_inv _ _ _ Es) as (Hp & Hz & cur & t' & es & Hd & Hcur & Hn).
  destruct (Os.plain (last (Py.split "/" p) "")) eqn:Hpl; [reflexivity|].
  exfalso. unfold Os.stat in Es. rewrite Hp, Hz in Es.
  rewrite (app_removelast_last "" (split_nonempty "/" p)) in Es at 1.
  rewrite descend_app, Hd in Es. simpl in Es. rewrite Hcur in Es.
  unfold Os.plain in Hpl. apply negb_false_iff in Hpl.
  destruct (String.eqb (last (Py.split "/" p) "") ""
            || String.eqb (last (Py.split "/" p) "") ".") eqn:E1.
  - rewrite Hcur in Es. discriminate.
  - simpl in Hpl. rewrite Hpl in Es.
    destruct cur as [|y cur]; simpl in Es.
    + simpl in Hcur. inversion Hcur; subst. discriminate.
    + destruct (find root (rev cur)) as [k|] eqn:Ek; [|discriminate].
      inversion Es; subst.
      simpl in Hcur. clear - Hcur Ek.
      assert (Hpre : forall q n a m, find n q = Some (File t d) ->
                find n (q ++ [a])%list = Some m -> False).
      { induction q as [|b q IH]; simpl; intros n a m H1 H2.
        - inversion H1; subst. discriminate.
        - destruct n; [discriminate|]. destruct (assoc b entries); [eauto|discriminate]. }
      eauto.
Qed.

Section Archive.

Context {host : Platform}.

(** A path that ends in a separator is never opened for writing. *)
Lemma open_write_trailing root p m :
  String.eqb (last (Py.split "/" p) "") "" = true ->
  exists e, Zipfile.open_write root p m = inl e.
Proof.
  intros Htr. unfold Zipfile.open_write.
  destruct (String.eqb p ""); [eauto|].
  destruct (Py.mem Ascii.zero p); [eauto|]. rewrite Htr.
  destruct (Zipfile.drop_trailing (Py.split "/" p)) as [|c comps]; [eauto|].
  destruct (Os.descend root [] (removelast (c :: comps))) as [e|cur]; [eauto|].
  destruct (find root (rev cur)) as [[|t es]|]; eauto.
  destruct (Os.plain (last (c :: comps) "")); eauto.
Qed.

(** What a successful [open_write] has done. *)
Lemma open_write_inv root p m root1 target :
  Zipfile.open_write root p m = inr (root1, target) ->
  String.eqb p "" = false /\ Py.mem Ascii.zero p = false /\
  exists cur,
    Os.descend root [] (removelast (Py.split "/" p)) = inr cur /\
    (exists t es, find root (rev cur) = Some (Dir t es)) /\
    Os.plain (last (Py.split "/" p) "") = true /\
    target = rev (last (Py.split "/" p) "" :: cur) /\
    put slot root target (File clock (Raw [])) = Some root1 /\
    (forall n, find root target = Some n -> is_dir n = false) /\
    (m = Zipfile.mode_x -> find root target = None).
Proof.
  intros H.
  destruct (String.eqb (last (Py.split "/" p) "") "") eqn:Htr.
  { destruct (open_write_trailing root p m Htr) as [e He]. congruence. }
  revert H. unfold Zipfile.open_write. rewrite Htr. intros H.
  destruct (String.eqb p "") eqn:Hp; [discriminate|].
  destruct (Py.mem Ascii.zero p) eqn:Hz; [discriminate|].
  do 2 (split; [reflexivity|]).
  destruct (Os.descend root [] (removelast (Py.split "/" p))) as [e|cur]; [discriminate|].
  exists cur. split; [reflexivity|].
  destruct (find root (rev cur)) as [[|t es]|] eqn:Ecur; try discriminate.
  split; [eauto|].
  destruct (Os.plain (last (Py.split "/" p) "")) eqn:Hpl;
    [|destruct m; discriminate].
  split; [reflexivity|].
  set (target0 := rev (last (Py.split "/" p) "" :: cur)) in *.
  destruct (find root target0) as [[t' d|t' es']|] eqn:Et.
  - destruct m; try discriminate;
      (destruct (put slot root target0 _) eqn:Ep; [|discriminate]);
      inversion H; subst; (split; [reflexivity|]); (split; [exact Ep|]);
      (split; [intros n Hn; rewrite Et in Hn; inversion Hn; reflexivity | discriminate]).
  - destruct m; discriminate.
  - destruct (put slot root target0 _) eqn:Ep; [|discriminate].
    inversion H; subst. split; [reflexivity|]. split; [exact Ep|].
    split; [intros n Hn; rewrite Et in Hn; discriminate | intros _; exact Et].
Qed.

(** Opening the archive keeps every file and directory there was. *)
Lemma open_write_extends root p m root1 target :
  Zipfile.open_write root p m = inr (root1, target) -> extends root root1.
Proof.
  intros H. destruct (open_write_inv _ _ _ _ _ H)
    as (_ & _ & cur & _ & _ & _ & _ & Hput & Hold & _).
  eapply put_extends; eauto.
Qed.

(** Once closed, the archive is found under the name it was opened
    with, and it holds the members that were written. *)
Lemma close_after_open root p m root1 target zf :
  Zipfile.open_write root p m = inr (root1, target) ->
  Zipfile.fp zf = target ->
  Os.stat (Zipfile.close root1 zf) p = inr (File clock (Zip (Zipfile.filelist zf)))
  /\ extends root (Zipfile.close root1 zf).
Proof.
  intros H Hfp. pose proof (open_write_extends _ _ _ _ _ H) as Hx1.
  destruct (open_write_inv _ _ _ _ _ H)
    as (Hp & Hz & cur & Hd & (t & es & Hcur) & Hpl & Ht & Hput & Hold & _).
  pose proof (find_put _ _ _ _ Hput) as Hf1.
  unfold Zipfile.close. rewrite Hfp.
  destruct (put_on_file (place := slot) _ _ _ (File clock (Zip (Zipfile.filelist zf))) Hf1)
    as [root2 Hput2].
  rewrite Hput2.
  assert (Hx2 : extends root1 root2).
  { eapply put_extends; eauto. intros n Hn. rewrite Hf1 in Hn. now inversion Hn. }
  pose proof (extends_trans _ _ _ Hx1 Hx2) as Hx. split; [|exact Hx].
  apply stat_last with (cur := cur); auto.
  - eapply descend_extends; eauto.
  - eapply extends_dir; eauto.
  - rewrite <- Ht. eapply find_put; eauto.
Qed.


(** The name the archive was opened with leads to it once it is
    closed. *)
Lemma close_locate root p m root1 target zf :
  Zipfile.open_write root p m = inr (root1, target) ->
  Zipfile.fp zf = target ->
  Os.locate (Zipfile.close root1 zf) p = Some target.
Proof.
  intros H Hfp. destruct (close_after_open _ _ _ _ _ zf H Hfp) as [Hs Hx].
  destruct (open_write_inv _ _ _ _ _ H)
    as (Hp & Hz & cur & Hd & (t & es & Hcur) & Hpl & Ht & Hput & Hold & _).
  destruct (stat_inv _ _ _ Hs) as (_ & _ & cur' & t' & es' & Hd' & Hcur' & Hn').
  rewrite (descend_extends _ _ _ Hx _ _ Hd) in Hd'. injection Hd' as <-.
  rewrite Ht.
  apply locate_last with (f := File clock (Zip (Zipfile.filelist zf))); auto.
  - eapply descend_extends; eauto.
  - eauto.
Qed.

(** The opened archive bears the time of the clock. *)
Lemma open_write_dated root p m root1 target :
  Zipfile.open_write root p m = inr (root1, target) ->
  dated root = true -> storable clock = true -> dated root1 = true.
Proof.
  intros H Hr Hc. destruct (open_write_inv _ _ _ _ _ H)
    as (_ & _ & cur & _ & _ & _ & _ & Hput & _).
  eapply dated_put; [exact Hr| |exact Hput]. simpl. now rewrite Hc.
Qed.

(** Exclusive creation fails on every regular file there is. *)
Lemma open_write_exists root p t d :
  Os.stat root p = inr (File t d) ->
  Zipfile.open_write root p Zipfile.mode_x = inl Os.EEXIST.
Proof.
  intros H. pose proof (stat_file_plain _ _ _ _ H) as Hpl.
  destruct (stat_inv _ _ _ H) as (Hp & Hz & cur & t' & es & Hd & Hcur & Hn).
  unfold Zipfile.open_write. rewrite Hp, Hz, (plain_not_empty _ Hpl), Hd, Hcur, Hpl.
  now rewrite (Hn Hpl).
Qed.


End Archive.

(** ** Loops *)

Lemma for_each_preserves {A S : Type} (P : S -> Prop) (body : A -> S -> S * option exn) :
  (forall a s s' e, P s -> body a s = (s', e) -> P s') ->
  forall l s s' e, P s -> for_each body l s = (s', e) -> P s'.
Proof.
  intros Hb. induction l as [|a l IH]; simpl; intros s s' e Hs H.
  - now inversion H; subst.
  - destruct (body a s) as [s1 [e1|]] eqn:E.
    + inversion H; subst. eauto.
    + eauto.
Qed.



(** ** Writing the sources *)

Section Writing.

Context {host : Platform}.

Lemma write_fp fs file arc zf zf' e :
  Zipfile.write fs file arc zf = (zf', e) -> Zipfile.fp zf' = Zipfile.fp zf.
Proof.
  unfold Zipfile.write. intros H.
  destruct (Os.stat fs file); [now inversion H|].
  destruct (Zipfile.member_name arc (is_dir n)); [|now inversion H].
  destruct (Zipfile.header_time (node_mtime n)); now inversion H.
Qed.


Lemma add_path_fp fs root count file st st' e :
  zip.add_path fs root count file st = (st', e) ->
  Zipfile.fp (fst st') = Zipfile.fp (fst st).
Proof.
  unfold zip.add_path. destruct st as [zf n].
  destruct (Zipfile.write fs file (Py.replace file root "") zf) as [zf1 [e1|]] eqn:E;
    intros H; inversion H; subst; simpl; eapply write_fp; eauto.
Qed.

Lemma add_source_fp fs root item st st' e :
  zip.add_source fs root item st = (st', e) ->
  Zipfile.fp (fst st') = Zipfile.fp (fst st).
Proof.
  unfold zip.add_source.
  destruct (Os.path.isfile fs (Py.strip item)); [apply add_path_fp|].
  intros H. revert H.
  apply (for_each_preserves (fun s => Zipfile.fp (fst s) = Zipfile.fp (fst st)));
    [|reflexivity].
  intros [[dirpath dirnames] filenames] s s1 e1 Hs. unfold zip.add_directory.
  destruct (for_each _ filenames s) as [s2 [e2|]] eqn:E2; intros H.
  - inversion H; subst. revert E2.
    apply (for_each_preserves (fun s => Zipfile.fp (fst s) = Zipfile.fp (fst st))); auto.
    intros a x x' e' Hx Hb. rewrite (add_path_fp _ _ _ _ _ _ _ Hb). exact Hx.
  - revert H.
    apply (for_each_preserves (fun s => Zipfile.fp (fst s) = Zipfile.fp (fst st))).
    + intros a x x' e' Hx Hb. rewrite (add_path_fp _ _ _ _ _ _ _ Hb). exact Hx.
    + revert E2.
      apply (for_each_preserves (fun s => Zipfile.fp (fst s) = Zipfile.fp (fst st))); auto.
      intros a x x' e' Hx Hb. rewrite (add_path_fp _ _ _ _ _ _ _ Hb). exact Hx.
Qed.

Lemma add_sources_fp fs root l st st' e :
  for_each (zip.add_source fs root) l st = (st', e) ->
  Zipfile.fp (fst st') = Zipfile.fp (fst st).
Proof.
  apply (for_each_preserves (fun s => Zipfile.fp (fst s) = Zipfile.fp (fst st)));
    [|reflexivity].
  intros a s s1 e1 Hs Hb. rewrite (add_source_fp _ _ _ _ _ _ Hb). exact Hs.
Qed.





End Writing.

(** ** Sources that are regular files *)

Section Files.

Context {host : Platform}.

Lemma add_file fs root item st t d name :
  Os.stat fs (Py.strip item) = inr (File t d) ->
  storable t = true ->
  arcname root (Py.strip item) = Ok name ->
  exists m,
    ZipInfo.filename (info m) = name /\
    zip.add_source fs root item st
    = (({| Zipfile.zf_filename := Zipfile.zf_filename (fst st);
           Zipfile.fp := Zipfile.fp (fst st);
           Zipfile.filelist := (Zipfile.filelist (fst st) ++ [m])%list |},
        snd st + 1), None).
Proof.
  intros Hs Ht Ha. unfold zip.add_source, Os.path.isfile. rewrite Hs. simpl.
  destruct st as [zf n]. unfold zip.add_path, Zipfile.write. rewrite Hs. simpl.
  unfold arcname in Ha. rewrite Ha. unfold storable in Ht.
  destruct (Zipfile.header_time t) as [t'|]; [|discriminate].
  eexists. split; [|reflexivity]. reflexivity.
Qed.

(** Regular files whose names the library accepts are all written,
    their time stamps being ones the archive can keep. *)
Lemma add_files fs root l : forall names st,
  dated fs = true ->
  Forall (fun item => Os.path.isfile fs item = true) (map Py.strip l) ->
  Forall2 (fun item name => arcname root item = Ok name) (map Py.strip l) names ->
  exists zf',
    for_each (zip.add_source fs root) l st = ((zf', snd st + length l), None) /\
    names_of (Zipfile.filelist zf') = (names_of (Zipfile.filelist (fst st)) ++ names)%list.
Proof.
  induction l as [|a l IH]; simpl; intros names st Hdt Hf Hn.
  - inversion Hn; subst. exists (fst st). rewrite app_nil_r, Nat.add_0_r.
    now destruct st.
  - inversion Hf as [|? ? Ha Hl]; subst. inversion Hn as [|? name ? names' Hna Hnl]; subst.
    unfold Os.path.isfile in Ha.
    destruct (Os.stat fs (Py.strip a)) as [|[t d|]] eqn:Es; try discriminate.
    destruct (add_file fs root a st t d name Es (dated_stat _ _ _ Hdt Es) Hna)
      as (m & Hm & ->).
    destruct (IH names'
                ({| Zipfile.zf_filename := Zipfile.zf_filename (fst st);
                    Zipfile.fp := Zipfile.fp (fst st);
                    Zipfile.filelist := (Zipfile.filelist (fst st) ++ [m])%list |},
                 snd st + 1) Hdt Hl Hnl) as (zf' & -> & Hnames).
    exists zf'. split; [f_equal; f_equal; simpl; lia|].
    rewrite Hnames. simpl. unfold names_of. rewrite map_app. simpl.
    rewrite Hm, <- app_assoc. reflexivity.
Qed.

(** Conversely, when regular files were written without an exception,
    each has the name the library made of it. *)
Lemma add_files_inv fs root l : forall st st',
  Forall (fun item => Os.path.isfile fs item = true) (map Py.strip l) ->
  for_each (zip.add_source fs root) l st = (st', None) ->
  exists names,
    Forall2 (fun item name => arcname root item = Ok name) (map Py.strip l) names /\
    names_of (Zipfile.filelist (fst st'))
    = (names_of (Zipfile.filelist (fst st)) ++ names)%list.
Proof.
  induction l as [|a l IH]; simpl; intros st st' Hf H.
  - inversion H; subst. exists []. split; [constructor | now rewrite app_nil_r].
  - inversion Hf as [|? ? Ha Hl]; subst.
    destruct (zip.add_source fs root a st) as [s1 [e1|]] eqn:E; [discriminate|].
    destruct (IH _ _ Hl H) as (names & Hn & Hnames).
    unfold Os.path.isfile in Ha.
    destruct (Os.stat fs (Py.strip a)) as [|[t d|]] eqn:Es; try discriminate.
    destruct (arcname root (Py.strip a)) as [name|e] eqn:Ea.
    + assert (Ht : storable t = true).
      { unfold storable. destruct (Zipfile.header_time t) eqn:Eh; [reflexivity|].
        exfalso. unfold zip.add_source, Os.path.isfile in E. rewrite Es in E. simpl in E.
        destruct st as [zf n]. unfold zip.add_path, Zipfile.write in E. rewrite Es in E.
        simpl in E. unfold arcname in Ea. rewrite Ea, Eh in E. discriminate. }
      destruct (add_file fs root a st t d name Es Ht Ea) as (m & Hm & E').
      rewrite E' in E. inversion E; subst. exists (ZipInfo.filename (info m) :: names).
      split; [constructor; assumption|].
      rewrite Hnames. simpl. unfold names_of. rewrite map_app, <- app_assoc. reflexivity.
    + exfalso. unfold zip.add_source, Os.path.isfile in E. rewrite Es in E. simpl in E.
      destruct st as [zf n]. unfold zip.add_path, Zipfile.write in E. rewrite Es in E.
      simpl in E. unfold arcname in Ea. rewrite Ea in E. discriminate.
Qed.

End Files.

(** ** The [except] clauses *)

Lemma respond_ok clauses payload st msg :
  zip.respond clauses payload (Ok (st, msg)) = Ok (zip.Response st msg payload).
Proof. reflexivity. Qed.

(** The clauses of [list], [extract], [extractall] and [test]. *)
Lemma respond_read filename payload e :
  zip.respond [zip.except_FileNotFoundError_strerror filename; zip.except_all] payload
    (Raise e)
  = Ok (zip.Response "error"
          match e with
          | FileNotFoundError strerror _ => zip.str_opt strerror ++ " " ++ filename
          | _ => zip.exn_text e
          end payload).
Proof. now destruct e. Qed.

(** The clauses of [create]. *)
Lemma respond_create e :
  zip.respond [zip.except_FileExistsError; zip.except_FileNotFoundError; zip.except_all]
    None (Raise e)
  = Ok (zip.Response "error"
          match e with
          | FileNotFoundError _ _ => "File not found: " ++ zip.exn_text e
          | _ => zip.exn_text e
          end None).
Proof. now destruct e. Qed.

(** ** [create] *)

Section Create.

Context {host : Platform}.

(** The pre-check reports the first source that does not exist. *)
Lemma check_sources_find fs l :
  zip.check_sources fs l
  = option_map (FileNotFoundError None)
      (List.find (fun item => negb (Os.path.exists_ fs item)) (map Py.strip l)).
Proof.
  unfold zip.check_sources. induction l as [|a l IH]; simpl; [reflexivity|].
  destruct (Os.path.exists_ fs (Py.strip a)); simpl; [exact IH | reflexivity].
Qed.

Lemma check_sources_pass fs l :
  Forall (fun item => Os.path.exists_ fs item = true) (map Py.strip l) ->
  zip.check_sources fs l = None.
Proof.
  rewrite check_sources_find. induction l as [|a l IH]; simpl; intros H; [reflexivity|].
  inversion H; subst. rewrite H2. simpl. auto.
Qed.

(** The three ways through [create] after a pre-check that passed. *)
Lemma create_not_opened fs filename source root overwrite e :
  zip.check_sources fs (Py.split ";" source) = None ->
  Zipfile.open_write fs (Py.strip filename) (zip.mode_of overwrite) = inl e ->
  zip.create fs filename source root overwrite
  = (zip.respond [zip.except_FileExistsError; zip.except_FileNotFoundError; zip.except_all]
       None (Raise (Zipfile.os_error e (Py.strip filename))), fs).
Proof.
  intros Hc Ho. unfold zip.create, Zipfile.ZipFile_write. now rewrite Hc, Ho.
Qed.

Lemma create_written fs filename source root overwrite fs1 target zf' cnt :
  zip.check_sources fs (Py.split ";" source) = None ->
  Zipfile.open_write fs (Py.strip filename) (zip.mode_of overwrite) = inr (fs1, target) ->
  for_each (zip.add_source fs1 root) (Py.split ";" source)
    ({| Zipfile.zf_filename := Py.strip filename; Zipfile.fp := target;
        Zipfile.filelist := [] |}, 0)
  = ((zf', cnt), None) ->
  zip.create fs filename source root overwrite
  = (Ok (zip.Response "ok"
           (Py.str (Z.of_nat cnt) ++ " files written to archive " ++ Py.strip filename)
           None),
     Zipfile.close fs1 zf').
Proof.
  intros Hc Ho Hw. unfold zip.create, Zipfile.ZipFile_write. now rewrite Hc, Ho, Hw.
Qed.

Lemma create_ok_inv fs filename source root overwrite r fs' :
  zip.create fs filename source root overwrite = (Ok r, fs') ->
  zip.status r = "ok" ->
  exists fs1 target zf' cnt,
    zip.check_sources fs (Py.split ";" source) = None /\
    Zipfile.open_write fs (Py.strip filename) (zip.mode_of overwrite) = inr (fs1, target) /\
    for_each (zip.add_source fs1 root) (Py.split ";" source)
      ({| Zipfile.zf_filename := Py.strip filename; Zipfile.fp := target;
          Zipfile.filelist := [] |}, 0)
    = ((zf', cnt), None) /\
    fs' = Zipfile.close fs1 zf' /\
    r = zip.Response "ok"
          (Py.str (Z.of_nat cnt) ++ " files written to archive " ++ Py.strip filename)
          None.
Proof.
  unfold zip.create, Zipfile.ZipFile_write. intros H Hst.
  destruct (zip.check_sources fs (Py.split ";" source)) as [e|].
  { rewrite respond_create in H. inversion H; subst. discriminate. }
  destruct (Zipfile.open_write fs (Py.strip filename) (zip.mode_of overwrite))
    as [e|[fs1 target]].
  { rewrite respond_create in H. inversion H; subst. discriminate. }
  destruct (for_each _ _ _) as [[zf' cnt] [e|]] eqn:Ew.
  { rewrite respond_create in H. inversion H; subst. discriminate. }
  rewrite respond_ok in H. inversion H; subst.
  exists fs1, target, zf', cnt. repeat split; auto.
Qed.

End Create.

(** ** Removing the root *)

Lemma replace_scan_skip old new p rest :
  Py.replace_scan old new (String.length p) (p ++ rest) = Py.replace_scan old new 0 rest.
Proof. induction p as [|c p IH]; simpl; [reflexivity | exact IH]. Qed.

Lemma prefix_append p rest : String.prefix p (p ++ rest) = true.
Proof.
  induction p as [|c p IH]; simpl; [now destruct rest|].
  destruct (ascii_dec c c); [exact IH | contradiction].
Qed.

(** A leading [root] is removed, and so is every occurrence of [root]
    in the rest of the path. *)
Lemma replace_leading root rest :
  Py.replace (root ++ rest) root "" = Py.replace rest root "".
Proof.
  destruct root as [|c root]; [reflexivity|].
  unfold Py.replace. change (String c root ++ rest) with (String c (root ++ rest)).
  cbn [Py.replace_scan].
  change (String c (root ++ rest)) with (String c root ++ rest).
  rewrite prefix_append.
  replace (String.length (String c root) - 1) with (String.length root)
    by (simpl; lia).
  apply replace_scan_skip.
Qed.

(** ** Creating, then listing *)

Lemma Forall2_names {A : Type} (R : A -> string -> Prop) (l : list A) (ms : list member) :
  Forall2 R l (names_of ms) ->
  Forall2 (fun a e => R a (zip.Entry.filename e)) l (map zip.entry_of ms).
Proof.
  revert l. induction ms as [|m ms IH]; simpl; intros l H; inversion H; subst;
    constructor; auto.
Qed.

(** C1 (as the code has it).  When [create] has made an archive of
    sources that are all regular files, [list] on that archive
    returns one entry per source, in the order of the sources, and
    the name of each entry is the member name the archive library
    makes of the trimmed source path with every occurrence of [root]
    removed. *)
Theorem list_after_create {host : Platform} fs filename source root overwrite r fs' :
  zip.create fs filename source root overwrite = (Ok r, fs') ->
  zip.status r = "ok" ->
  Forall (fun item => Os.path.isfile fs item = true) (sources_of source) ->
  exists entries,
    zip.list fs' filename = Ok (zip.Response "ok" (Py.strip filename) (Some entries)) /\
    length entries = length (sources_of source) /\
    Forall2 (fun item e => arcname root item = Ok (zip.Entry.filename e))
      (sources_of source) entries.
Proof.
  intros Hc Hst Hfiles.
  destruct (create_ok_inv _ _ _ _ _ _ _ Hc Hst)
    as (fs1 & target & zf' & cnt & _ & Ho & Hw & -> & _).
  pose proof (open_write_extends _ _ _ _ _ Ho) as Hx.
  assert (Hfiles1 : Forall (fun item => Os.path.isfile fs1 item = true) (sources_of source)).
  { eapply Forall_impl; [|exact Hfiles]. intros a. apply isfile_extends, Hx. }
  destruct (add_files_inv _ _ _ _ _ Hfiles1 Hw) as (names & Hn & Hnames).
  simpl in Hnames.
  pose proof (add_sources_fp _ _ _ _ _ _ Hw) as Hfp. simpl in Hfp.
  destruct (close_after_open _ _ _ _ _ zf' Ho Hfp) as [Hstat _].
  exists (map zip.entry_of (Zipfile.filelist zf')). split; [|split].
  - unfold zip.list, Zipfile.ZipFile_read. rewrite Hstat. reflexivity.
  - rewrite length_map. apply Forall2_length in Hn. unfold sources_of.
    rewrite Hn, <- Hnames. unfold names_of. now rewrite length_map.
  - apply (Forall2_names (fun item name => arcname root item = Ok name)).
    now rewrite Hnames.
Qed.

Lemma list_after_create_witness :
  exists entries,
    zip.list (host := sample_host)
      (snd (zip.create (host := sample_host) sample_fs "/tmp/out.zip"
              "/data/a.txt; /data/sub/b.txt" "/data/" 1))
      "/tmp/out.zip"
    = Ok (zip.Response "ok" "/tmp/out.zip" (Some entries)) /\
    length entries = 2 /\
    Forall2 (fun item e =>
               arcname "/data/" item = Ok (zip.Entry.filename e))
      ["/data/a.txt"; "/data/sub/b.txt"] entries.
Proof.
  apply (list_after_create (host := sample_host) sample_fs "/tmp/out.zip"
           "/data/a.txt; /data/sub/b.txt" "/data/" 1
           (zip.Response "ok" "2 files written to archive /tmp/out.zip" None)).
  - vm_compute. reflexivity.
  - reflexivity.
  - vm_compute. repeat constructor.
Defined.

(** C1 as the specification words it fails: [root] is removed wherever
    it occurs, not at the front only, and the library normalises what
    is left.  The source [/data/x/data/a.txt] with the root [/data],
    its exact leading substring, is listed as [x/a.txt], which is
    neither the path without its prefix nor that path without every
    occurrence of the root. *)
Lemma list_after_create_not_prefix_removal :
  Os.path.isfile nested_fs "/data/x/data/a.txt" = true /\
  Py.startswith "/data/x/data/a.txt" "/data" = true /\
  Py.drop (String.length "/data") "/data/x/data/a.txt" = "/x/data/a.txt" /\
  zip.create (host := sample_host) nested_fs "/tmp/out.zip" "/data/x/data/a.txt" "/data" 1
  = (Ok (zip.Response "ok" "1 files written to archive /tmp/out.zip" None),
     snd (zip.create (host := sample_host) nested_fs "/tmp/out.zip"
            "/data/x/data/a.txt" "/data" 1)) /\
  zip.list (host := sample_host)
    (snd (zip.create (host := sample_host) nested_fs "/tmp/out.zip"
            "/data/x/data/a.txt" "/data" 1))
    "/tmp/out.zip"
  = Ok (zip.Response "ok" "/tmp/out.zip"
          (Some [zip.Entry.make "x/a.txt" 1 1 "2024-1-5 9:3:6"])) /\
  "x/a.txt" <> Py.drop (String.length "/data") "/data/x/data/a.txt".
Proof.
  repeat split; try (vm_compute; reflexivity). vm_compute. discriminate.
Qed.

(** ** The pre-check *)

(** C2.  When one of the sources does not exist, [create] returns the
    status ["error"], its message names the first source that is
    missing, and the file system is as it was: the archive was
    neither opened nor created. *)
Theorem create_missing_source {host : Platform} fs filename source root overwrite :
  Exists (fun item => Os.path.exists_ fs item = false) (sources_of source) ->
  exists item,
    List.find (fun item => negb (Os.path.exists_ fs item)) (sources_of source) = Some item /\
    Os.path.exists_ fs item = false /\
    zip.create fs filename source root overwrite
    = (Ok (zip.Response "error" ("File not found: " ++ item) None), fs).
Proof.
  intros Hex.
  assert (Hfind : exists item,
             List.find (fun item => negb (Os.path.exists_ fs item)) (sources_of source)
             = Some item).
  { induction Hex as [a l Ha|a l _ IH]; simpl.
    - rewrite Ha. simpl. eauto.
    - destruct (negb (Os.path.exists_ fs a)); eauto. }
  destruct Hfind as [item Hfind]. exists item. split; [exact Hfind|].
  destruct (find_some _ _ Hfind) as [_ Hneg]. apply negb_true_iff in Hneg.
  split; [exact Hneg|].
  unfold zip.create. rewrite check_sources_find. fold (sources_of source).
  rewrite Hfind. simpl. reflexivity.
Qed.

Lemma create_missing_source_witness :
  exists item,
    List.find (fun item => negb (Os.path.exists_ sample_fs item))
      (sources_of "/data/a.txt; /data/none ;/nowhere") = Some item /\
    Os.path.exists_ sample_fs item = false /\
    zip.create (host := sample_host) sample_fs "/tmp/out.zip"
      "/data/a.txt; /data/none ;/nowhere" "/data" 1
    = (Ok (zip.Response "error" ("File not found: " ++ item) None), sample_fs).
Proof.
  apply (create_missing_source (host := sample_host)).
  apply Exists_exists. exists "/data/none". split.
  - vm_compute. right. left. reflexivity.
  - vm_compute. reflexivity.
Defined.

(** ** Archives of regular files *)

(** Once the target is open, sources that are regular files whose
    names the library accepts and whose time stamps the archive can
    keep make [create] succeed, and the archive holds exactly
    them. *)
Lemma create_of_files {host : Platform} fs filename source root overwrite fs1 target names :
  Zipfile.open_write fs (Py.strip filename) (zip.mode_of overwrite) = inr (fs1, target) ->
  dated fs = true -> storable clock = true ->
  Forall (fun item => Os.path.isfile fs item = true) (sources_of source) ->
  Forall2 (fun item name => arcname root item = Ok name) (sources_of source) names ->
  exists fs' ms,
    zip.create fs filename source root overwrite
    = (Ok (zip.Response "ok"
             (Py.str (Z.of_nat (length names)) ++ " files written to archive "
              ++ Py.strip filename) None), fs') /\
    Os.stat fs' (Py.strip filename) = inr (File clock (Zip ms)) /\
    names_of ms = names.
Proof.
  intros Ho Hdt Hck Hfiles Hnames.
  pose proof (open_write_extends _ _ _ _ _ Ho) as Hx.
  pose proof (open_write_dated _ _ _ _ _ Ho Hdt Hck) as Hdt1.
  assert (Hfiles1 : Forall (fun item => Os.path.isfile fs1 item = true)
                      (sources_of source)).
  { eapply Forall_impl; [|exact Hfiles]. intros a. apply isfile_extends, Hx. }
  destruct (add_files fs1 root (Py.split ";" source) names
              ({| Zipfile.zf_filename := Py.strip filename; Zipfile.fp := target;
                  Zipfile.filelist := [] |}, 0) Hdt1 Hfiles1 Hnames)
    as (zf' & Hw & Hn).
  simpl in Hw, Hn.
  assert (Hcheck : zip.check_sources fs (Py.split ";" source) = None).
  { apply check_sources_pass. eapply Forall_impl; [|exact Hfiles].
    intros a. unfold Os.path.isfile, Os.path.exists_.
    destruct (Os.stat fs a); [discriminate | reflexivity]. }
  pose proof (add_sources_fp _ _ _ _ _ _ Hw) as Hfp. simpl in Hfp.
  destruct (close_after_open _ _ _ _ _ zf' Ho Hfp) as [Hstat _].
  exists (Zipfile.close fs1 zf'), (Zipfile.filelist zf').
  split; [|split; [exact Hstat | exact Hn]].
  rewrite (create_written _ _ _ _ _ _ _ _ _ Hcheck Ho Hw).
  apply Forall2_length in Hnames. unfold sources_of in Hnames.
  rewrite length_map in Hnames. now rewrite Hnames.
Qed.

(** ** The file counter *)



(** ** Responses *)

(** C4.  Each of the five operations returns a response dictionary,
    whatever its arguments: no exception leaves it, the status is
    ["ok"] or ["error"], and a message comes with it. *)
Theorem operations_always_respond {host : Platform}
    fs filename source root overwrite member path :
  (exists r, zip.list fs filename = Ok r /\ uniform r) /\
  (exists r fs', zip.create fs filename source root overwrite = (Ok r, fs') /\ uniform r) /\
  (exists r fs', zip.extract fs filename member path = (Ok r, fs') /\ uniform r) /\
  (exists r fs', zip.extractall fs filename path = (Ok r, fs') /\ uniform r) /\
  (exists r, zip.test fs filename = Ok r /\ uniform r).
Proof.
  unfold uniform. repeat split.
  - unfold zip.list. destruct (Zipfile.ZipFile_read fs (Py.strip filename)) as [ms|e].
    + rewrite respond_ok. eexists. split; [reflexivity | left; reflexivity].
    + rewrite respond_read. eexists. split; [reflexivity | right; reflexivity].
  - unfold zip.create.
    destruct (zip.check_sources fs (Py.split ";" source)) as [e|].
    { rewrite respond_create. do 2 eexists. split; [reflexivity | right; reflexivity]. }
    destruct (Zipfile.ZipFile_write fs (Py.strip filename) (zip.mode_of overwrite))
      as [[fs1 myzip]|e].
    2: { rewrite respond_create. do 2 eexists. split; [reflexivity | right; reflexivity]. }
    destruct (for_each _ _ _) as [[myzip' cnt] [e|]].
    + rewrite respond_create. do 2 eexists. split; [reflexivity | right; reflexivity].
    + rewrite respond_ok. do 2 eexists. split; [reflexivity | left; reflexivity].
  - unfold zip.extract. destruct (Zipfile.ZipFile_read fs (Py.strip filename)) as [ms|e].
    + destruct (Zipfile.extract fs ms member path) as [fs' [e|]].
      * rewrite respond_read. do 2 eexists. split; [reflexivity | right; reflexivity].
      * rewrite respond_ok. do 2 eexists. split; [reflexivity | left; reflexivity].
    + rewrite respond_read. do 2 eexists. split; [reflexivity | right; reflexivity].
  - unfold zip.extractall. destruct (Zipfile.ZipFile_read fs (Py.strip filename)) as [ms|e].
    + destruct (Zipfile.extractall fs ms path) as [fs' [e|]].
      * rewrite respond_read. do 2 eexists. split; [reflexivity | right; reflexivity].
      * rewrite respond_ok. do 2 eexists. split; [reflexivity | left; reflexivity].
    + rewrite respond_read. do 2 eexists. split; [reflexivity | right; reflexivity].
  - unfold zip.test. destruct (Zipfile.ZipFile_read fs (Py.strip filename)) as [ms|e].
    + destruct (zip.truthy (Zipfile.testzip ms)); rewrite respond_ok;
        eexists; (split; [reflexivity|]); [right | left]; reflexivity.
    + rewrite respond_read. eexists. split; [reflexivity | right; reflexivity].
Qed.

(** ** Testing an archive *)

Lemma NameToInfo_in ms name : forall m,
  Zipfile.NameToInfo ms name = Some m -> In m ms.
Proof.
  induction ms as [|k ms IH]; simpl; intros m H; [discriminate|].
  destruct (Zipfile.NameToInfo ms name) as [m'|].
  - right. apply IH. exact H.
  - destruct (String.eqb (ZipInfo.filename (info k)) name); [|discriminate].
    left. now inversion H.
Qed.

(** What is read for a member of the archive is a member of the
    archive. *)
Lemma opened_in ms m : In m ms -> In (Zipfile.opened ms m) ms.
Proof.
  intros Hin. unfold Zipfile.opened.
  destruct (Zipfile.NameToInfo ms (ZipInfo.filename (info m))) as [m'|] eqn:E;
    [eapply NameToInfo_in; eauto | exact Hin].
Qed.

(** [testzip] names the first member for which bad data are read. *)
Lemma testzip_first all ms name :
  Zipfile.testzip_loop all ms = Some name <->
  exists good m rest,
    ms = (good ++ m :: rest)%list /\
    Forall (fun g => intact (Zipfile.opened all g) = true) good /\
    intact (Zipfile.opened all m) = false /\ name = ZipInfo.filename (info m).
Proof.
  split.
  - induction ms as [|m ms IH]; simpl; [discriminate|].
    destruct (intact (Zipfile.opened all m)) eqn:Em; intros H.
    + destruct (IH H) as (good & b & rest & -> & Hg & Hb & Hn).
      exists (m :: good), b, rest. repeat split; auto.
    + inversion H; subst. exists [], m, ms. repeat split; auto.
  - intros (good & m & rest & -> & Hg & Hb & ->).
    induction Hg as [|g good Hi _ IH]; simpl; [now rewrite Hb | now rewrite Hi].
Qed.

Lemma testzip_none all ms :
  Zipfile.testzip_loop all ms = None <->
  Forall (fun m => intact (Zipfile.opened all m) = true) ms.
Proof.
  induction ms as [|m ms IH]; simpl.
  - split; [constructor | reflexivity].
  - destruct (intact (Zipfile.opened all m)) eqn:Em.
    + rewrite IH. split; [now constructor | now inversion 1].
    + split; [discriminate | inversion 1; congruence].
Qed.

(** An archive all of whose members are intact passes. *)
Lemma testzip_intact ms :
  Forall (fun m => intact m = true) ms -> Zipfile.testzip ms = None.
Proof.
  intros H. apply testzip_none. rewrite Forall_forall in *.
  intros m Hin. apply H. now apply opened_in.
Qed.

(** What [test] answers on an archive: the name of the first bad
    member when that name is not empty, and a pass when no member is
    bad. *)
Lemma test_on_archive {host : Platform} fs filename t ms :
  Os.stat fs (Py.strip filename) = inr (File t (Zip ms)) ->
  (forall name, Zipfile.testzip ms = Some name -> name <> "" ->
     zip.test fs filename = Ok (zip.Response "error" name None)) /\
  (Zipfile.testzip ms = None ->
     zip.test fs filename
     = Ok (zip.Response "ok" ("Test passed for " ++ Py.strip filename) None)).
Proof.
  intros Hs. unfold zip.test, Zipfile.ZipFile_read. rewrite Hs. split.
  - intros name -> Hn. simpl. destruct (String.eqb_spec name ""); [contradiction|].
    reflexivity.
  - intros ->. reflexivity.
Qed.

(** C6 at the input where the code departs from it: in [/bad.zip] the
    first damaged member has the empty name; [testzip] returns that
    name, the test [if (badfile)] takes it for "no bad file", and
    [test] reports a pass. *)
Theorem test_passes_damaged_archive :
  Zipfile.testzip damaged_members = Some "" /\
  zip.test (host := sample_host) damaged_fs "/bad.zip"
  = Ok (zip.Response "ok" "Test passed for /bad.zip" None).
Proof. split; reflexivity. Qed.

(** ** A missing archive *)

(** C7.  When there is no file of the archive's name, the four
    reading operations return the status ["error"] with the reason
    text of the operating system, a space, and the trimmed file
    name; nothing is written. *)
Theorem missing_archive {host : Platform} fs filename member path :
  Os.stat fs (Py.strip filename) = inl Os.ENOENT ->
  let msg := Zipfile.ENOENT_text ++ " " ++ Py.strip filename in
  zip.list fs filename = Ok (zip.Response "error" msg (Some [])) /\
  zip.extract fs filename member path = (Ok (zip.Response "error" msg None), fs) /\
  zip.extractall fs filename path = (Ok (zip.Response "error" msg None), fs) /\
  zip.test fs filename = Ok (zip.Response "error" msg None).
Proof.
  intros Hs msg.
  unfold zip.list, zip.extract, zip.extractall, zip.test, Zipfile.ZipFile_read.
  rewrite Hs. simpl. repeat split.
Qed.

Lemma missing_archive_witness :
  zip.list (host := sample_host) sample_fs " /tmp/none.zip "
  = Ok (zip.Response "error" "No such file or directory /tmp/none.zip" (Some [])) /\
  zip.extract (host := sample_host) sample_fs " /tmp/none.zip " "x" "/tmp"
  = (Ok (zip.Response "error" "No such file or directory /tmp/none.zip" None), sample_fs) /\
  zip.extractall (host := sample_host) sample_fs " /tmp/none.zip " "/tmp"
  = (Ok (zip.Response "error" "No such file or directory /tmp/none.zip" None), sample_fs) /\
  zip.test (host := sample_host) sample_fs " /tmp/none.zip "
  = Ok (zip.Response "error" "No such file or directory /tmp/none.zip" None).
Proof.
  apply (missing_archive (host := sample_host) sample_fs " /tmp/none.zip " "x" "/tmp").
  reflexivity.
Defined.

(** ** Extracting a member that is not there *)

Lemma NameToInfo_absent ms name :
  ~ In name (names_of ms) -> Zipfile.NameToInfo ms name = None.
Proof.
  induction ms as [|m ms IH]; simpl; intros H; [reflexivity|].
  rewrite IH by tauto.
  destruct (String.eqb_spec (ZipInfo.filename (info m)) name); [tauto | reflexivity].
Qed.

(** C9.  On an existing archive, [extract] of a name that no member
    has returns the status ["error"], raises nothing, and leaves the
    file system as it was: nothing is created at the destination. *)
Theorem extract_absent_member {host : Platform} fs filename member path t ms :
  Os.stat fs (Py.strip filename) = inr (File t (Zip ms)) ->
  ~ In member (names_of ms) ->
  exists msg,
    zip.extract fs filename member path = (Ok (zip.Response "error" msg None), fs).
Proof.
  intros Hs Hn. unfold zip.extract, Zipfile.ZipFile_read. rewrite Hs.
  unfold Zipfile.extract, Zipfile.getinfo. rewrite (NameToInfo_absent _ _ Hn).
  rewrite respond_read. eexists. reflexivity.
Qed.

Lemma extract_absent_member_witness :
  exists msg,
    zip.extract (host := sample_host) sample_fs "/old.zip" "w" "/tmp"
    = (Ok (zip.Response "error" msg None), sample_fs).
Proof.
  apply (extract_absent_member (host := sample_host) sample_fs "/old.zip" "w" "/tmp"
           sample_time
           [Member (ZipInfo.make "x" 1 1 sample_time) true;
            Member (ZipInfo.make "y" 2 2 sample_time) false;
            Member (ZipInfo.make "z" 3 3 sample_time) false]).
  - reflexivity.
  - simpl. intros [H|[H|[H|[]]]]; discriminate.
Defined.

(** ** The modification time *)

Lemma unorm_fixed_head d u : Decimal.unorm d = d -> d = Decimal.D0 u -> u = Decimal.Nil.
Proof.
  intros Hn ->. rewrite DecimalFacts.unorm_D0 in Hn.
  destruct u; [reflexivity| exfalso ..];
    match type of Hn with
    | Decimal.unorm ?v = _ =>
        assert (Hv : v <> Decimal.Nil) by discriminate;
        pose proof (DecimalFacts.nb_digits_unorm v Hv) as Hle;
        rewrite Hn in Hle; simpl in Hle; lia
    end.
Qed.

Lemma to_uint_normal p : Decimal.unorm (Pos.to_uint p) = Pos.to_uint p.
Proof.
  rewrite <- (DecimalPos.Unsigned.to_of (Pos.to_uint p)).
  now rewrite DecimalPos.Unsigned.of_to.
Qed.

(** [str] of a natural number is its numeral without padding. *)
Lemma str_unpadded n : (0 <= n)%Z -> unpadded (Py.str n).
Proof.
  intros Hn. unfold unpadded, Py.str. destruct n as [|p|p]; [now left| |lia].
  simpl. pose proof (to_uint_normal p) as Hnorm.
  pose proof (DecimalPos.Unsigned.to_uint_nonzero p) as Hnz.
  destruct (Pos.to_uint p) as [|u|u|u|u|u|u|u|u|u|u] eqn:E;
    try (right; reflexivity); [now left|].
  pose proof (unorm_fixed_head _ u Hnorm eq_refl) as ->. now left.
Qed.

(** [str] of an integer reads back as that integer. *)
Lemma str_value n : option_map Z.of_int (NilZero.int_of_string (Py.str n)) = Some n.
Proof.
  unfold Py.str. rewrite NilZero.isi.
  - simpl. now rewrite DecimalZ.of_to.
  - destruct n; simpl; try discriminate.
    intros H. inversion H as [H1]. now apply DecimalPos.Unsigned.to_uint_nonnil in H1.
  - destruct n; simpl; try discriminate.
    intros H. inversion H as [H1]. now apply DecimalPos.Unsigned.to_uint_nonnil in H1.
Qed.

(** C8.  The modification time of an entry is the six components of
    the member's [date_time], each printed by [str], joined as
    [Y-M-D H:M:S]; [str] pads nothing: the numeral of a component
    does not begin with a zero unless the component is zero, and it
    reads back as the component.  [list] formats every entry so. *)
Theorem modified_is_unpadded {host : Platform} :
  (forall y mo d h mi s,
     zip._formateDateTime (y, mo, d, h, mi, s)
     = Py.str y ++ "-" ++ Py.str mo ++ "-" ++ Py.str d ++ " "
       ++ Py.str h ++ ":" ++ Py.str mi ++ ":" ++ Py.str s) /\
  (forall n, (0 <= n)%Z -> unpadded (Py.str n)) /\
  (forall n, option_map Z.of_int (NilZero.int_of_string (Py.str n)) = Some n) /\
  (forall fs filename t ms,
     Os.stat fs (Py.strip filename) = inr (File t (Zip ms)) ->
     exists entries,
       zip.list fs filename = Ok (zip.Response "ok" (Py.strip filename) (Some entries)) /\
       map zip.Entry.modified entries
       = map (fun m => zip._formateDateTime (ZipInfo.date_time (info m))) ms).
Proof.
  split; [reflexivity|]. split; [exact str_unpadded|]. split; [exact str_value|].
  intros fs filename t ms Hs. exists (map zip.entry_of ms). split.
  - unfold zip.list, Zipfile.ZipFile_read. now rewrite Hs.
  - rewrite map_map. reflexivity.
Qed.

Lemma modified_is_unpadded_witness :
  zip._formateDateTime (2024, 1, 5, 9, 3, 7)%Z = "2024-1-5 9:3:7" /\
  unpadded (Py.str 5) /\
  (exists entries,
     zip.list (host := sample_host) sample_fs "/old.zip"
     = Ok (zip.Response "ok" "/old.zip" (Some entries)) /\
     map zip.Entry.modified entries = ["2024-1-5 9:3:7"; "2024-1-5 9:3:7"; "2024-1-5 9:3:7"]).
Proof.
  destruct (modified_is_unpadded (host := sample_host)) as (Hf & Hu & _ & Hl).
  split; [exact (Hf 2024 1 5 9 3 7)%Z|]. split; [apply Hu; lia|].
  apply (Hl sample_fs "/old.zip" sample_time
           [Member (ZipInfo.make "x" 1 1 sample_time) true;
            Member (ZipInfo.make "y" 2 2 sample_time) false;
            Member (ZipInfo.make "z" 3 3 sample_time) false]).
  reflexivity.
Defined.

(** ** The overwrite flag *)



(** * Further properties of the module *)

(** ** Trimming *)

Lemma rstrip_idempotent s : Py.rstrip (Py.rstrip s) = Py.rstrip s.
Proof.
  induction s as [|c s IH]; simpl; [reflexivity|].
  destruct (Py.rstrip s) as [|c' r] eqn:E.
  - destruct (Py.isspace c) eqn:Ec; simpl; [reflexivity | now rewrite Ec].
  - change (Py.rstrip (String c (String c' r)))
      with (match Py.rstrip (String c' r) with
            | EmptyString => if Py.isspace c then EmptyString else String c EmptyString
            | r0 => String c r0
            end).
    now rewrite IH.
Qed.

Lemma lstrip_head s :
  Py.lstrip s = "" \/ exists c r, Py.lstrip s = String c r /\ Py.isspace c = false.
Proof.
  induction s as [|c s IH]; simpl; [now left|].
  destruct (Py.isspace c) eqn:Ec; [exact IH | right; eauto].
Qed.

Lemma lstrip_rstrip s :
  (s = "" \/ exists c r, s = String c r /\ Py.isspace c = false) ->
  Py.lstrip (Py.rstrip s) = Py.rstrip s.
Proof.
  intros [->|(c & r & -> & Hc)]; [reflexivity|].
  simpl. destruct (Py.rstrip r); rewrite ?Hc; simpl; now rewrite Hc.
Qed.

Lemma strip_idempotent s : Py.strip (Py.strip s) = Py.strip s.
Proof.
  unfold Py.strip. rewrite (lstrip_rstrip _ (lstrip_head s)). apply rstrip_idempotent.
Qed.

(** X1.  Every operation trims the file name it is given: white
    space around it changes nothing. *)
Theorem filename_is_trimmed {host : Platform} fs filename source root overwrite member path :
  zip.list fs filename = zip.list fs (Py.strip filename) /\
  zip.create fs filename source root overwrite
  = zip.create fs (Py.strip filename) source root overwrite /\
  zip.extract fs filename member path = zip.extract fs (Py.strip filename) member path /\
  zip.extractall fs filename path = zip.extractall fs (Py.strip filename) path /\
  zip.test fs filename = zip.test fs (Py.strip filename).
Proof.
  unfold zip.list, zip.create, zip.extract, zip.extractall, zip.test.
  rewrite strip_idempotent. repeat split.
Qed.

Lemma add_source_strip {host : Platform} fs root item :
  zip.add_source fs root item = zip.add_source fs root (Py.strip item).
Proof. unfold zip.add_source. now rewrite strip_idempotent. Qed.

Lemma add_sources_strip {host : Platform} fs root l1 : forall l2 st,
  map Py.strip l1 = map Py.strip l2 ->
  for_each (zip.add_source fs root) l1 st = for_each (zip.add_source fs root) l2 st.
Proof.
  induction l1 as [|a l1 IH]; intros [|b l2] st H; try discriminate; [reflexivity|].
  simpl in H. inversion H as [[Hab Hl]]. simpl.
  rewrite (add_source_strip fs root a), Hab, <- (add_source_strip fs root b).
  destruct (zip.add_source fs root b st) as [s' [e|]]; [reflexivity | now apply IH].
Qed.

(** X2.  [create] sees its sources through their trimmed fields only:
    two source strings with the same fields after trimming give the
    same response and the same file system. *)
Theorem sources_are_trimmed {host : Platform} fs filename source source' root overwrite :
  sources_of source = sources_of source' ->
  zip.create fs filename source root overwrite
  = zip.create fs filename source' root overwrite.
Proof.
  unfold sources_of. intros H. unfold zip.create.
  rewrite !check_sources_find, H.
  destruct (option_map _ _); [reflexivity|].
  destruct (Zipfile.ZipFile_write _ _ _) as [[fs1 myzip]|e]; [|reflexivity].
  now rewrite (add_sources_strip fs1 root _ _ _ H).
Qed.

Lemma sources_are_trimmed_witness :
  zip.create (host := sample_host) sample_fs "/tmp/out.zip"
    "  /data/a.txt ;/data/sub/b.txt  " "/data/" 0
  = zip.create (host := sample_host) sample_fs "/tmp/out.zip"
      "/data/a.txt;/data/sub/b.txt" "/data/" 0.
Proof.
  apply (sources_are_trimmed (host := sample_host)). vm_compute. reflexivity.
Defined.

(** ** Empty fields *)

Lemma split_trailing sep s :
  Py.split sep (s ++ String sep "") = (Py.split sep s ++ [""])%list.
Proof.
  induction s as [|c s IH]; simpl.
  - now rewrite Ascii.eqb_refl.
  - destruct (Ascii.eqb c sep); [now rewrite IH|].
    rewrite IH. destruct (Py.split sep s) eqn:E; [|reflexivity].
    now apply split_nonempty in E.
Qed.

Lemma find_missing_last fs l :
  exists item,
    List.find (fun item => negb (Os.path.exists_ fs item)) (l ++ [""])%list = Some item /\
    Os.path.exists_ fs item = false.
Proof.
  induction l as [|a l IH]; simpl.
  - exists "". split; reflexivity.
  - destruct (Os.path.exists_ fs a) eqn:Ea; simpl; [exact IH | eauto].
Qed.

(** X3.  An empty field among the sources is a source that does not
    exist: a source string that ends in a semicolon, like the empty
    source string, makes [create] fail in the pre-check, and the
    file system is as it was. *)
Theorem create_trailing_semicolon {host : Platform} fs filename source root overwrite :
  (exists item,
     Os.path.exists_ fs item = false /\
     zip.create fs filename (source ++ ";") root overwrite
     = (Ok (zip.Response "error" ("File not found: " ++ item) None), fs)) /\
  zip.create fs filename "" root overwrite
  = (Ok (zip.Response "error" "File not found: " None), fs).
Proof.
  split; [|reflexivity].
  destruct (find_missing_last fs (map Py.strip (Py.split ";" source))) as (item & Hf & He).
  exists item. split; [exact He|].
  unfold zip.create. rewrite check_sources_find, split_trailing, map_app.
  change (map Py.strip [""]) with [""]. rewrite Hf. reflexivity.
Qed.

(** ** A file that is no archive *)

(** X4.  On a regular file that is no ZIP container the four reading
    operations return the status ["error"] with the text of the
    library's exception; [list] returns an empty array, and
    [extract] and [extractall] write nothing. *)
Theorem reading_not_a_zip {host : Platform} fs filename member path t b :
  Os.stat fs (Py.strip filename) = inr (File t (Raw b)) ->
  let msg := "File is not a zip file" in
  zip.list fs filename = Ok (zip.Response "error" msg (Some [])) /\
  zip.extract fs filename member path = (Ok (zip.Response "error" msg None), fs) /\
  zip.extractall fs filename path = (Ok (zip.Response "error" msg None), fs) /\
  zip.test fs filename = Ok (zip.Response "error" msg None).
Proof.
  intros Hs msg.
  unfold zip.list, zip.extract, zip.extractall, zip.test, Zipfile.ZipFile_read.
  rewrite Hs. repeat split.
Qed.

Lemma reading_not_a_zip_witness :
  zip.list (host := sample_host) sample_fs "/data/a.txt"
  = Ok (zip.Response "error" "File is not a zip file" (Some [])) /\
  zip.extract (host := sample_host) sample_fs "/data/a.txt" "x" "/tmp"
  = (Ok (zip.Response "error" "File is not a zip file" None), sample_fs) /\
  zip.extractall (host := sample_host) sample_fs "/data/a.txt" "/tmp"
  = (Ok (zip.Response "error" "File is not a zip file" None), sample_fs) /\
  zip.test (host := sample_host) sample_fs "/data/a.txt"
  = Ok (zip.Response "error" "File is not a zip file" None).
Proof.
  apply (reading_not_a_zip (host := sample_host) sample_fs "/data/a.txt" "x" "/tmp"
           sample_time [Byte.x68; Byte.x69]).
  reflexivity.
Defined.

(** ** A target that is a directory *)

Lemma open_write_directory {host : Platform} root p m t es :
  Os.stat root p = inr (Dir t es) -> exists e, Zipfile.open_write root p m = inl e.
Proof.
  intros H. destruct (String.eqb (last (Py.split "/" p) "") "") eqn:Htr.
  { now apply open_write_trailing. }
  destruct (stat_inv _ _ _ H) as (Hp & Hz & cur & t' & es' & Hd & Hcur & Hn).
  unfold Zipfile.open_write. rewrite Hp, Hz, Htr, Hd, Hcur.
  destruct (Os.plain (last (Py.split "/" p) "")); [|eauto].
  rewrite (Hn eq_refl). eauto.
Qed.

(** X5.  [create] never replaces a directory: when the target names
    an existing directory the call returns the status ["error"],
    whatever the overwrite flag, and the file system is as it
    was. *)
Theorem create_on_directory {host : Platform} fs filename source root overwrite t es :
  Os.stat fs (Py.strip filename) = inr (Dir t es) ->
  exists msg,
    zip.create fs filename source root overwrite
    = (Ok (zip.Response "error" msg None), fs).
Proof.
  intros Hs.
  destruct (zip.check_sources fs (Py.split ";" source)) as [e|] eqn:Ec.
  - unfold zip.create. rewrite Ec, respond_create. eauto.
  - destruct (open_write_directory fs _ (zip.mode_of overwrite) _ _ Hs) as [e Ho].
    rewrite (create_not_opened _ _ _ _ _ _ Ec Ho), respond_create. eauto.
Qed.

Lemma create_on_directory_witness :
  exists msg,
    zip.create (host := sample_host) sample_fs "/tmp" "/data/a.txt" "/data/" 1
    = (Ok (zip.Response "error" msg None), sample_fs).
Proof.
  apply (create_on_directory (host := sample_host) sample_fs "/tmp" "/data/a.txt" "/data/"
           1%Z sample_time []).
  reflexivity.
Defined.

(** ** The archive [create] leaves behind *)

Section Written.

Context {host : Platform}.

Lemma write_intact fs file arc zf zf' e :
  Forall (fun m => intact m = true) (Zipfile.filelist zf) ->
  Zipfile.write fs file arc zf = (zf', e) ->
  Forall (fun m => intact m = true) (Zipfile.filelist zf').
Proof.
  unfold Zipfile.write. intros Hz H.
  destruct (Os.stat fs file); [now inversion H; subst|].
  destruct (Zipfile.member_name arc (is_dir n)); [|now inversion H; subst].
  destruct (Zipfile.header_time (node_mtime n)); inversion H; subst; auto.
  simpl. apply Forall_app. split; [exact Hz | now repeat constructor].
Qed.

Lemma add_path_intact fs root count file st st' e :
  Forall (fun m => intact m = true) (Zipfile.filelist (fst st)) ->
  zip.add_path fs root count file st = (st', e) ->
  Forall (fun m => intact m = true) (Zipfile.filelist (fst st')).
Proof.
  unfold zip.add_path. destruct st as [zf n]. intros Hz.
  destruct (Zipfile.write fs file (Py.replace file root "") zf) as [zf1 [e1|]] eqn:E;
    intros H; inversion H; subst; simpl; eapply write_intact; eauto.
Qed.

Lemma add_sources_intact fs root l st st' e :
  Forall (fun m => intact m = true) (Zipfile.filelist (fst st)) ->
  for_each (zip.add_source fs root) l st = (st', e) ->
  Forall (fun m => intact m = true) (Zipfile.filelist (fst st')).
Proof.
  set (P := fun s : Zipfile.ZipFile * nat =>
              Forall (fun m => intact m = true) (Zipfile.filelist (fst s))).
  assert (Hpath : forall count (f : string -> string) names s s' e',
             P s -> for_each (fun name => zip.add_path fs root count (f name)) names s
                    = (s', e') -> P s').
  { intros count f names. apply (for_each_preserves P).
    intros a s s' e' Hs Hb. eapply add_path_intact; eauto. }
  apply (for_each_preserves P). intros item s s' e' Hs. unfold zip.add_source.
  destruct (Os.path.isfile fs (Py.strip item)); [now apply add_path_intact|].
  apply (for_each_preserves P); [|exact Hs].
  intros [[dirpath dirnames] filenames] x x' e1 Hx. unfold zip.add_directory.
  destruct (for_each _ filenames x) as [x1 [e2|]] eqn:E2; intros H.
  - inversion H; subst. eapply Hpath; eauto.
  - eapply Hpath; [|exact H]. eapply Hpath; eauto.
Qed.

(** Whatever happens after the archive has been opened, [create]
    closes it: the target is then an archive of the members written
    so far, all of them intact. *)
Lemma create_after_open fs filename source root overwrite fs1 target :
  zip.check_sources fs (Py.split ";" source) = None ->
  Zipfile.open_write fs (Py.strip filename) (zip.mode_of overwrite) = inr (fs1, target) ->
  exists zf' r,
    zip.create fs filename source root overwrite = (Ok r, Zipfile.close fs1 zf') /\
    Zipfile.fp zf' = target /\
    Forall (fun m => intact m = true) (Zipfile.filelist zf') /\
    Os.stat (Zipfile.close fs1 zf') (Py.strip filename)
    = inr (File clock (Zip (Zipfile.filelist zf'))).
Proof.
  intros Hc Ho. unfold zip.create, Zipfile.ZipFile_write. rewrite Hc, Ho.
  destruct (for_each _ _ _) as [[zf' cnt] e] eqn:Hw.
  pose proof (add_sources_fp _ _ _ _ _ _ Hw) as Hfp. simpl in Hfp.
  assert (Hi : Forall (fun m => intact m = true) (Zipfile.filelist zf')).
  { refine (add_sources_intact _ _ _ (_, _) (zf', cnt) _ _ Hw). constructor. }
  destruct (close_after_open _ _ _ _ _ zf' Ho Hfp) as [Hstat _].
  exists zf'. destruct e as [e|].
  - rewrite respond_create. eexists. repeat split; auto.
  - rewrite respond_ok. eexists. repeat split; auto.
Qed.

End Written.

(** X6.  An archive [create] has just made passes [test]: every
    member it wrote is intact. *)
Theorem test_after_create {host : Platform} fs filename source root overwrite r fs' :
  zip.create fs filename source root overwrite = (Ok r, fs') ->
  zip.status r = "ok" ->
  zip.test fs' filename
  = Ok (zip.Response "ok" ("Test passed for " ++ Py.strip filename) None).
Proof.
  intros Hc Hst.
  destruct (create_ok_inv _ _ _ _ _ _ _ Hc Hst)
    as (fs1 & target & zf0 & cnt & Hcheck & Ho & _ & _ & _).
  destruct (create_after_open _ _ _ root _ _ _ Hcheck Ho) as (zf' & r' & Hc' & _ & Hi & Hs).
  rewrite Hc in Hc'. inversion Hc'; subst.
  apply (proj2 (test_on_archive _ _ _ _ Hs)). now apply testzip_intact.
Qed.

Lemma test_after_create_witness :
  zip.test (host := sample_host)
    (snd (zip.create (host := sample_host) sample_fs "/tmp/out.zip" "/data" "/data/" 0))
    "/tmp/out.zip"
  = Ok (zip.Response "ok" "Test passed for /tmp/out.zip" None).
Proof.
  apply (test_after_create (host := sample_host) sample_fs "/tmp/out.zip" "/data" "/data/"
           0%Z (zip.Response "ok" "2 files written to archive /tmp/out.zip" None)).
  - vm_compute. reflexivity.
  - reflexivity.
Defined.

(** X7.  After a successful [create], a second [create] on the same
    target without overwriting fails, whatever its sources, and
    leaves the archive of the first call as it is. *)
Theorem create_twice {host : Platform} fs filename source root overwrite r fs' :
  zip.create fs filename source root overwrite = (Ok r, fs') ->
  zip.status r = "ok" ->
  forall source2 root2,
  exists msg,
    zip.create fs' filename source2 root2 0 = (Ok (zip.Response "error" msg None), fs').
Proof.
  intros Hc Hst source2 root2.
  destruct (create_ok_inv _ _ _ _ _ _ _ Hc Hst)
    as (fs1 & target & zf0 & cnt & Hcheck & Ho & _ & _ & _).
  destruct (create_after_open _ _ _ root _ _ _ Hcheck Ho) as (zf' & r' & Hc' & _ & _ & Hs).
  rewrite Hc in Hc'. inversion Hc'; subst.
  pose proof (open_write_exists (host := host) _ _ _ _ Hs) as Hx.
  destruct (zip.check_sources (Zipfile.close fs1 zf') (Py.split ";" source2)) as [e|] eqn:Ec.
  - unfold zip.create. rewrite Ec, respond_create. eauto.
  - rewrite (create_not_opened _ _ _ _ 0%Z _ Ec Hx), respond_create. eauto.
Qed.

Lemma create_twice_witness :
  exists msg,
    zip.create (host := sample_host)
      (snd (zip.create (host := sample_host) sample_fs "/tmp/out.zip" "/data" "/data/" 0))
      "/tmp/out.zip" "/data/a.txt" "/" 0
    = (Ok (zip.Response "error" msg None),
       snd (zip.create (host := sample_host) sample_fs "/tmp/out.zip" "/data" "/data/" 0)).
Proof.
  apply (create_twice (host := sample_host) sample_fs "/tmp/out.zip" "/data" "/data/"
           0%Z (zip.Response "ok" "2 files written to archive /tmp/out.zip" None)).
  - vm_compute. reflexivity.
  - reflexivity.
Defined.

(** ** A failure after the archive was opened *)





(** ** What [create] leaves alone *)

(** Setting the node at [p] leaves every regular file elsewhere as it
    is. *)
Lemma find_put_other {place : list string -> string -> nat} p : forall r f r' q t d,
  put place r p f = Some r' ->
  (forall n, find r p = Some n -> is_dir n = false) ->
  q <> p -> find r q = Some (File t d) -> find r' q = Some (File t d).
Proof.
  induction p as [|c p IH]; simpl; intros r f r' q t d H Hold Hq Hf.
  - specialize (Hold r eq_refl). destruct r; [|discriminate].
    destruct q; [contradiction | discriminate].
  - destruct r as [|tr es]; [discriminate|].
    destruct q as [|k q]; [discriminate|]. simpl in Hf.
    destruct (String.eqb_spec k c) as [->|Hk].
    + destruct (assoc c es) as [m|] eqn:Ea; [|discriminate].
      destruct (put place m p f) as [m'|] eqn:Ep; [|discriminate].
      inversion H; subst. simpl. rewrite assoc_set_entry_same.
      eapply IH; eauto. congruence.
    + assert (Hr : exists es', r' = Dir tr es' /\ assoc k es' = assoc k es).
      { destruct (assoc c es) as [m|]; [destruct (put place m p f); [|discriminate]
                                       | destruct p; [|discriminate]];
          inversion H; subst; eexists; split; try reflexivity;
          now apply assoc_set_entry_other. }
      destruct Hr as (es' & -> & Hes). simpl. now rewrite Hes.
Qed.

(** X9.  [create] writes to its target only: whatever the outcome,
    every regular file there was is afterwards what it was, content
    and time stamp, unless its path and the name of the target lead
    to one and the same place, the archive. *)
Theorem create_changes_only_target {host : Platform}
    fs filename source root overwrite p t d :
  Os.stat fs p = inr (File t d) ->
  let fs' := snd (zip.create fs filename source root overwrite) in
  Os.stat fs' p = inr (File t d) \/
  exists place,
    Os.locate fs' p = Some place /\ Os.locate fs' (Py.strip filename) = Some place.
Proof.
  intros Hp fs'. subst fs'.
  destruct (zip.check_sources fs (Py.split ";" source)) as [e|] eqn:Ec.
  { unfold zip.create. rewrite Ec. left. exact Hp. }
  destruct (Zipfile.open_write fs (Py.strip filename) (zip.mode_of overwrite))
    as [e|[fs1 target]] eqn:Ho.
  { rewrite (create_not_opened _ _ _ _ _ _ Ec Ho). left. exact Hp. }
  destruct (create_after_open _ _ _ root _ _ _ Ec Ho) as (zf' & r & -> & Hfp & _ & Hs).
  simpl. destruct (close_after_open _ _ _ _ _ zf' Ho Hfp) as [_ Hx].
  pose proof (close_locate _ _ _ _ _ zf' Ho Hfp) as Hloc.
  destruct (open_write_inv _ _ _ _ _ Ho)
    as (_ & _ & cur0 & _ & _ & _ & _ & Hput & Hold & _).
  pose proof (find_put _ _ _ _ Hput) as Hf1.
  pose proof Hp as Hp0. unfold Os.stat in Hp0.
  destruct (String.eqb p "") eqn:Hpe; [discriminate|].
  destruct (Py.mem Ascii.zero p) eqn:Hpz; [discriminate|].
  destruct (Os.descend fs [] (Py.split "/" p)) as [e|cur] eqn:Ed; [discriminate|].
  destruct (find fs (rev cur)) as [n|] eqn:Ef; [|discriminate].
  injection Hp0 as ->.
  pose proof (descend_extends _ _ _ Hx _ _ Ed) as Ed'.
  revert Hloc Ed'. unfold Zipfile.close. rewrite Hfp.
  destruct (put_on_file (place := slot) _ _ _ (File clock (Zip (Zipfile.filelist zf'))) Hf1)
    as [fs2 Hput2].
  rewrite Hput2. intros Hloc Ed'.
  destruct (list_eq_dec string_dec (rev cur) target) as [Heq|Hne].
  - right. exists target. split; [|exact Hloc].
    unfold Os.locate. rewrite Hpe, Hpz, Ed', Heq.
    now rewrite (find_put _ _ _ _ Hput2).
  - left. unfold Os.stat. rewrite Hpe, Hpz, Ed'.
    rewrite (find_put_other _ _ _ _ _ t d Hput2); [reflexivity| |exact Hne|].
    + intros n Hn'. rewrite Hf1 in Hn'. now inversion Hn'.
    + eapply find_put_other; eauto.
Qed.

Lemma create_changes_only_target_witness :
  Os.stat (snd (zip.create (host := sample_host) sample_fs "/data/a.txt" "/data" "/" 1))
    "/data/sub/b.txt"
  = inr (File sample_time (Raw []))
  \/ exists place,
       Os.locate
         (snd (zip.create (host := sample_host) sample_fs "/data/a.txt" "/data" "/" 1))
         "/data/sub/b.txt" = Some place /\
       Os.locate
         (snd (zip.create (host := sample_host) sample_fs "/data/a.txt" "/data" "/" 1))
         (Py.strip "/data/a.txt") = Some place.
Proof.
  apply (create_changes_only_target (host := sample_host) sample_fs "/data/a.txt" "/data" "/"
           1%Z "/data/sub/b.txt" sample_time (Raw [])).
  reflexivity.
Defined.

(** ** Reading a formatted time back *)

Lemma string_of_uint_digits d : all_digits (NilEmpty.string_of_uint d) = true.
Proof. induction d; simpl; auto. Qed.

Lemma str_digits n : (0 <= n)%Z -> all_digits (Py.str n) = true.
Proof.
  intros Hn. unfold Py.str. destruct n as [|p|p]; [reflexivity| |lia].
  simpl. unfold NilZero.string_of_uint.
  destruct (Pos.to_uint p) eqn:E; try reflexivity; rewrite <- E; apply string_of_uint_digits.
Qed.

Lemma str_injective n m : Py.str n = Py.str m -> n = m.
Proof.
  intros H. pose proof (str_value n) as Hn. rewrite H, str_value in Hn. now inversion Hn.
Qed.

(** Two strings of digits followed by the same separator and equal
    as a whole are equal part by part. *)
Lemma digits_then_separator a : forall b c x y,
  all_digits a = true -> all_digits b = true -> is_digit c = false ->
  a ++ String c x = b ++ String c y -> a = b /\ x = y.
Proof.
  induction a as [|k a IH]; intros [|k' b] c x y Ha Hb Hc H; simpl in *.
  - inversion H. auto.
  - inversion H; subst. apply andb_true_iff in Hb as [Hk _]. congruence.
  - inversion H; subst. apply andb_true_iff in Ha as [Hk _]. congruence.
  - inversion H; subst. apply andb_true_iff in Ha as [_ Ha].
    apply andb_true_iff in Hb as [_ Hb].
    destruct (IH b c x y Ha Hb Hc H2) as [-> ->]. auto.
Qed.

(** X10.  The format of [_formateDateTime] loses nothing: two time
    stamps of natural numbers that are formatted alike are the same
    time stamp. *)
Theorem formatted_time_determines dt dt' :
  natural_time dt -> natural_time dt' ->
  zip._formateDateTime dt = zip._formateDateTime dt' -> dt = dt'.
Proof.
  destruct dt as [[[[[y mo] d] h] mi] s], dt' as [[[[[y' mo'] d'] h'] mi'] s'].
  intros (Hy & Hmo & Hd & Hh & Hmi & Hs) (Hy' & Hmo' & Hd' & Hh' & Hmi' & Hs') H.
  unfold zip._formateDateTime in H.
  change ("-" ++ ?x) with (String "-" x) in H.
  change (" " ++ ?x) with (String " " x) in H.
  change (":" ++ ?x) with (String ":" x) in H.
  apply digits_then_separator in H as [E1 H]; auto using str_digits.
  apply digits_then_separator in H as [E2 H]; auto using str_digits.
  apply digits_then_separator in H as [E3 H]; auto using str_digits.
  apply digits_then_separator in H as [E4 H]; auto using str_digits.
  apply digits_then_separator in H as [E5 E6]; auto using str_digits.
  apply str_injective in E1, E2, E3, E4, E5, E6. congruence.
Qed.

Lemma formatted_time_determines_witness :
  (2024, 1, 5, 9, 3, 7)%Z = (2024, 1, 5, 9, 3, 7)%Z.
Proof.
  apply (formatted_time_determines (2024, 1, 5, 9, 3, 7)%Z (2024, 1, 5, 9, 3, 7)%Z).
  - simpl. lia.
  - simpl. lia.
  - reflexivity.
Defined.

(** ** A target inside a directory *)

Lemma split_append sep a : forall b,
  Py.split sep (a ++ String sep b) = (Py.split sep a ++ Py.split sep b)%list.
Proof.
  induction a as [|c a IH]; intros b; simpl.
  - now rewrite Ascii.eqb_refl.
  - destruct (Ascii.eqb c sep); [now rewrite IH|].
    rewrite IH. destruct (Py.split sep a) eqn:E; [|reflexivity].
    now apply split_nonempty in E.
Qed.

Lemma split_single sep s : Py.mem sep s = false -> Py.split sep s = [s].
Proof.
  induction s as [|c s IH]; simpl; [reflexivity|].
  intros H. apply orb_false_iff in H as [Hc Hs].
  rewrite Ascii.eqb_sym, Hc, (IH Hs). reflexivity.
Qed.

Lemma mem_append c a b : Py.mem c (a ++ b) = Py.mem c a || Py.mem c b.
Proof. induction a as [|k a IH]; simpl; [reflexivity | now rewrite IH, orb_assoc]. Qed.

Lemma append_nonempty a c b : String.eqb (a ++ String c b) "" = false.
Proof. now destruct a. Qed.

(** The components of [dir/name]. *)
Lemma split_path dir name :
  Py.mem "/" name = false ->
  removelast (Py.split "/" (dir ++ "/" ++ name)) = Py.split "/" dir /\
  last (Py.split "/" (dir ++ "/" ++ name)) "" = name.
Proof.
  intros Hn. change (dir ++ "/" ++ name) with (dir ++ String "/" name).
  rewrite split_append, (split_single _ _ Hn). split.
  - apply removelast_last.
  - apply last_last.
Qed.

Lemma find_prefix p : forall q n, find n (p ++ q)%list <> None -> find n p <> None.
Proof.
  induction p as [|a p IH]; simpl; intros q n Hq; [discriminate|].
  destruct n; [exact Hq|]. destruct (assoc a entries); [eauto | exact Hq].
Qed.

(** Resolution leads to a node that is there. *)
Lemma descend_found r comps : forall cur c,
  find r (rev cur) <> None -> Os.descend r cur comps = inr c -> find r (rev c) <> None.
Proof.
  induction comps as [|x comps IH]; simpl; intros cur c Hcur H.
  - now inversion H; subst.
  - destruct (find r (rev cur)) as [[|t es]|] eqn:Ecur; try discriminate.
    destruct (String.eqb x "" || String.eqb x ".").
    { eapply IH; [|exact H]. congruence. }
    destruct (String.eqb x "..").
    { eapply IH; [|exact H]. destruct cur as [|y cur]; simpl in *; [congruence|].
      apply (find_prefix (rev cur) [y]). congruence. }
    destruct (find r (rev cur ++ [x])%list) eqn:En; [|discriminate].
    eapply IH; [|exact H]. simpl. congruence.
Qed.

Lemma put_new {place : list string -> string -> nat} q : forall r c f t es,
  find r q = Some (Dir t es) -> find r (q ++ [c])%list = None ->
  exists r', put place r (q ++ [c])%list f = Some r'.
Proof.
  induction q as [|k q IH]; simpl; intros r c f t es Hq Hn.
  - inversion Hq; subst. destruct (assoc c es); [discriminate | eauto].
  - destruct r as [|t0 es0]; [discriminate|].
    destruct (assoc k es0) as [m|]; [|discriminate].
    destruct (IH m c f t es Hq Hn) as [m' ->]. eauto.
Qed.

Section Target.

Context {host : Platform}.

(** A name that is free in an existing directory can be opened in
    either writing mode. *)
Lemma open_write_new root dir name m t es :
  Os.stat root dir = inr (Dir t es) ->
  Os.plain name = true -> Py.mem "/" name = false -> Py.mem Ascii.zero name = false ->
  Os.stat root (dir ++ "/" ++ name) = inl Os.ENOENT ->
  exists root1 target, Zipfile.open_write root (dir ++ "/" ++ name) m = inr (root1, target).
Proof.
  intros Hdir Hpl Hsl Hz Hfree.
  destruct (split_path dir name Hsl) as [Hparent Hlast].
  assert (Hp : String.eqb (dir ++ "/" ++ name) "" = false) by apply append_nonempty.
  unfold Os.stat in Hdir.
  destruct (String.eqb dir ""); [discriminate|].
  destruct (Py.mem Ascii.zero dir) eqn:Hzd; [discriminate|].
  destruct (Os.descend root [] (Py.split "/" dir)) as [e|cur] eqn:Ed; [discriminate|].
  destruct (find root (rev cur)) as [n|] eqn:Ecur; [|discriminate].
  inversion Hdir; subst.
  assert (Hzp : Py.mem Ascii.zero (dir ++ "/" ++ name) = false).
  { rewrite mem_append, Hzd. simpl. exact Hz. }
  assert (Hnone : find root (rev cur ++ [name])%list = None).
  { unfold Os.stat in Hfree. rewrite Hp, Hzp in Hfree.
    rewrite (app_removelast_last "" (split_nonempty "/" (dir ++ "/" ++ name))) in Hfree.
    rewrite Hparent, Hlast, descend_app, Ed in Hfree. simpl in Hfree.
    rewrite Ecur in Hfree. unfold Os.plain in Hpl. apply negb_true_iff in Hpl.
    apply orb_false_iff in Hpl as [H1 H2]. rewrite H1, H2 in Hfree.
    destruct (find root (rev cur ++ [name])%list) eqn:Ef; [|reflexivity].
    simpl in Hfree. rewrite Ef in Hfree. discriminate. }
  unfold Zipfile.open_write.
  rewrite Hp, Hzp, Hparent, Hlast, (plain_not_empty _ Hpl), Ed, Ecur, Hpl. simpl.
  rewrite Hnone.
  destruct (put_new (place := slot) _ _ name (File clock (Raw [])) _ _ Ecur Hnone)
    as [r' ->].
  eauto.
Qed.

(** A directory that is missing on the way to the target makes the
    open fail with [ENOENT]. *)
Lemma open_write_no_directory root dir name m :
  dir <> "" -> Os.stat root dir = inl Os.ENOENT ->
  name <> "" -> Py.mem "/" name = false -> Py.mem Ascii.zero name = false ->
  Zipfile.open_write root (dir ++ "/" ++ name) m = inl Os.ENOENT.
Proof.
  intros Hne Hdir Hname Hsl Hz.
  destruct (split_path dir name Hsl) as [Hparent Hlast].
  assert (Hp : String.eqb (dir ++ "/" ++ name) "" = false) by apply append_nonempty.
  unfold Os.stat in Hdir.
  destruct (String.eqb_spec dir ""); [contradiction|].
  destruct (Py.mem Ascii.zero dir) eqn:Hzd; [discriminate|].
  assert (Hzp : Py.mem Ascii.zero (dir ++ "/" ++ name) = false).
  { rewrite mem_append, Hzd. simpl. exact Hz. }
  unfold Zipfile.open_write. rewrite Hp, Hzp, Hparent, Hlast.
  destruct (String.eqb_spec name ""); [contradiction|].
  destruct (Os.descend root [] (Py.split "/" dir)) as [e|cur] eqn:Ed.
  - now inversion Hdir.
  - exfalso. destruct (find root (rev cur)) eqn:Ef; [discriminate|].
    destruct root as [t d|t es].
    + destruct (Py.split "/" dir) eqn:Es; [now apply split_nonempty in Es|].
      simpl in Ed. discriminate.
    + apply (descend_found _ _ _ _ (fun H : find (Dir t es) (rev []) = None =>
                                      ltac:(discriminate)) Ed Ef).
Qed.

End Target.

(** X11.  A target whose directory does not exist is reported like a
    missing source: when the sources exist and the target is a name
    in a directory that is not there, the open fails with "no such
    file or directory", the message is ["File not found: "] followed
    by the text of that error, and nothing is written.  (The name is
    not empty: a target that ends in a separator is refused as a
    directory.) *)
Theorem create_in_missing_directory {host : Platform}
    fs filename dir name source root overwrite :
  Py.strip filename = dir ++ "/" ++ name ->
  dir <> "" -> Os.stat fs dir = inl Os.ENOENT ->
  name <> "" -> Py.mem "/" name = false -> Py.mem Ascii.zero name = false ->
  Forall (fun item => Os.path.exists_ fs item = true) (sources_of source) ->
  zip.create fs filename source root overwrite
  = (Ok (zip.Response "error"
           ("File not found: "
            ++ Zipfile.OSError_text 2 Zipfile.ENOENT_text (dir ++ "/" ++ name)) None), fs).
Proof.
  intros Hf Hne Hdir Hname Hsl Hz Hsrc.
  pose proof (open_write_no_directory fs dir name (zip.mode_of overwrite) Hne Hdir Hname
                Hsl Hz) as Ho.
  rewrite <- Hf in Ho.
  rewrite (create_not_opened _ _ _ _ _ _ (check_sources_pass _ _ Hsrc) Ho), respond_create.
  now rewrite Hf.
Qed.

Lemma create_in_missing_directory_witness :
  zip.create (host := sample_host) sample_fs " /backup/out.zip" "/data/a.txt" "/data/" 0
  = (Ok (zip.Response "error"
           "File not found: [Errno 2] No such file or directory: '/backup/out.zip'" None),
     sample_fs).
Proof.
  apply (create_in_missing_directory (host := sample_host) sample_fs " /backup/out.zip"
           "/backup" "out.zip" "/data/a.txt" "/data/" 0%Z).
  - reflexivity.
  - discriminate.
  - reflexivity.
  - discriminate.
  - reflexivity.
  - reflexivity.
  - vm_compute. repeat constructor.
Defined.

(** X12.  A new archive: on a file system and with a clock whose
    time stamps the archive can keep, when the target is a free name
    in an existing directory and the sources are regular files whose
    names the library accepts, [create] succeeds with either value of
    the overwrite flag, reports their number, and the target is an
    archive of exactly those sources. *)
Theorem create_new_archive {host : Platform}
    fs filename dir name source root overwrite names t es :
  Py.strip filename = dir ++ "/" ++ name ->
  Os.stat fs dir = inr (Dir t es) ->
  Os.plain name = true -> Py.mem "/" name = false -> Py.mem Ascii.zero name = false ->
  Os.stat fs (dir ++ "/" ++ name) = inl Os.ENOENT ->
  dated fs = true -> storable clock = true ->
  Forall (fun item => Os.path.isfile fs item = true) (sources_of source) ->
  Forall2 (fun item name => arcname root item = Ok name) (sources_of source) names ->
  exists fs' ms,
    zip.create fs filename source root overwrite
    = (Ok (zip.Response "ok"
             (Py.str (Z.of_nat (length names)) ++ " files written to archive "
              ++ Py.strip filename) None), fs') /\
    Os.stat fs' (Py.strip filename) = inr (File clock (Zip ms)) /\
    names_of ms = names.
Proof.
  intros Hf Hdir Hpl Hsl Hz Hfree Hdt Hck Hfiles Hnames.
  destruct (open_write_new fs dir name (zip.mode_of overwrite) t es Hdir Hpl Hsl Hz Hfree)
    as (fs1 & target & Ho).
  rewrite <- Hf in Ho. eapply create_of_files; eauto.
Qed.

Lemma create_new_archive_witness :
  exists fs' ms,
    zip.create (host := sample_host) sample_fs "/tmp/out.zip "
      "/data/a.txt;/data/sub/b.txt" "/data/" 0
    = (Ok (zip.Response "ok" "2 files written to archive /tmp/out.zip" None), fs') /\
    Os.stat fs' "/tmp/out.zip" = inr (File sample_time (Zip ms)) /\
    names_of ms = ["a.txt"; "sub/b.txt"].
Proof.
  apply (create_new_archive (host := sample_host) sample_fs "/tmp/out.zip " "/tmp" "out.zip"
           "/data/a.txt;/data/sub/b.txt" "/data/" 0%Z ["a.txt"; "sub/b.txt"]
           sample_time []).
  - reflexivity.
  - reflexivity.
  - reflexivity.
  - reflexivity.
  - reflexivity.
  - reflexivity.
  - reflexivity.
  - reflexivity.
  - vm_compute. repeat constructor.
  - vm_compute. repeat constructor.
Defined.

(** ** Archiving directory trees *)

(** *** The loops of [create] as one loop over the planned paths *)




Section Planned.

Context {host : Platform}.





End Planned.

(** *** Walking a well-formed tree *)






Lemma good_name_inv k :
  good_name k = true ->
  Os.plain k = true /\ Py.mem "/" k = false /\ Py.mem Ascii.zero k = false.
Proof.
  unfold good_name. intros H. apply andb_true_iff in H as [H Hz].
  apply andb_true_iff in H as [Hp Hs]. apply negb_true_iff in Hs, Hz. auto.
Qed.




Lemma plain_nonempty k : Os.plain k = true -> k <> "".
Proof. intros H ->. discriminate. Qed.






(** *** Opening the archive keeps the file system well formed *)















(** *** Sources that are files or directories *)






(** ** The time stamps of the members *)

Lemma zrange_in lo n x : (lo <= x < lo + Z.of_nat n)%Z -> In x (zrange lo n).
Proof.
  intros H. unfold zrange. apply in_map_iff. exists (Z.to_nat (x - lo)).
  split; [lia|]. apply in_seq. lia.
Qed.

Lemma dates_kept :
  forallb (fun y => forallb (fun mo => forallb (date_kept y mo) (zrange 1 31)) (zrange 1 12))
    (zrange 1980 128) = true.
Proof. vm_compute. reflexivity. Qed.

Lemma times_kept :
  forallb (fun h => forallb (fun mi => forallb (time_kept h mi) (zrange 0 62)) (zrange 0 60))
    (zrange 0 24) = true.
Proof. vm_compute. reflexivity. Qed.

(** A time stamp of the calendar is kept as it is, but for the
    seconds, which are rounded down to an even number. *)
Lemma header_time_calendar y mo d h mi s :
  calendar (y, mo, d, h, mi, s) ->
  Zipfile.header_time (y, mo, d, h, mi, s) = Ok (y, mo, d, h, mi, 2 * (s / 2))%Z.
Proof.
  intros (Hy & Hmo & Hd & Hh & Hmi & Hs).
  assert (HD : date_kept y mo d = true).
  { pose proof dates_kept as H. rewrite forallb_forall in H.
    specialize (H y (zrange_in 1980 128 y ltac:(lia))). rewrite forallb_forall in H.
    specialize (H mo (zrange_in 1 12 mo ltac:(lia))). rewrite forallb_forall in H.
    exact (H d (zrange_in 1 31 d ltac:(lia))). }
  assert (HT : time_kept h mi s = true).
  { pose proof times_kept as H. rewrite forallb_forall in H.
    specialize (H h (zrange_in 0 24 h ltac:(lia))). rewrite forallb_forall in H.
    specialize (H mi (zrange_in 0 60 mi ltac:(lia))). rewrite forallb_forall in H.
    exact (H s (zrange_in 0 62 s ltac:(lia))). }
  unfold date_kept in HD. unfold time_kept in HT.
  change (Zipfile.dos_date (y, mo, d, 0, 0, 0)%Z)
    with (Zipfile.dos_date (y, mo, d, h, mi, s)) in HD.
  change (Zipfile.dos_time (0, 0, 0, h, mi, s)%Z)
    with (Zipfile.dos_time (y, mo, d, h, mi, s)) in HT.
  apply andb_true_iff in HD as [HD H4]. apply andb_true_iff in HD as [HD H3].
  apply andb_true_iff in HD as [H1 H2].
  apply andb_true_iff in HT as [HT H8]. apply andb_true_iff in HT as [HT H7].
  apply andb_true_iff in HT as [H5 H6].
  apply Z.eqb_eq in H2, H3, H4, H6, H7, H8.
  unfold Zipfile.header_time. destruct (Z.ltb_spec y 1980); [lia|].
  rewrite H1, H5. cbn [andb]. unfold Zipfile.header_date_time.
  now rewrite H2, H3, H4, H6, H7, H8.
Qed.

Section Times.

Context {host : Platform}.

Lemma add_file_time fs root item st st' t d :
  Os.stat fs (Py.strip item) = inr (File t d) ->
  zip.add_source fs root item st = (st', None) ->
  exists m,
    Zipfile.filelist (fst st') = (Zipfile.filelist (fst st) ++ [m])%list /\
    Zipfile.header_time t = Ok (ZipInfo.date_time (info m)).
Proof.
  intros Hs. unfold zip.add_source, Os.path.isfile. rewrite Hs. simpl.
  destruct st as [zf n]. unfold zip.add_path, Zipfile.write. rewrite Hs. simpl.
  destruct (Zipfile.member_name _ false) as [name|]; [|discriminate].
  destruct (Zipfile.header_time t) as [t'|]; [|discriminate].
  intros H. inversion H; subst. simpl. eexists. split; reflexivity.
Qed.

(** Each regular file that was written bears the time its header
    made of the time of the file. *)
Lemma add_files_times fs root l : forall st st',
  Forall (fun item => Os.path.isfile fs item = true) (map Py.strip l) ->
  for_each (zip.add_source fs root) l st = (st', None) ->
  exists ms,
    Zipfile.filelist (fst st') = (Zipfile.filelist (fst st) ++ ms)%list /\
    Forall2 (fun item m =>
               exists t d, Os.stat fs item = inr (File t d) /\
                           Zipfile.header_time t = Ok (ZipInfo.date_time (info m)))
      (map Py.strip l) ms.
Proof.
  induction l as [|a l IH]; simpl; intros st st' Hf H.
  - inversion H; subst. exists []. rewrite app_nil_r. split; [reflexivity | constructor].
  - inversion Hf as [|? ? Ha Hl]; subst.
    destruct (zip.add_source fs root a st) as [s1 [e1|]] eqn:E; [discriminate|].
    unfold Os.path.isfile in Ha.
    destruct (Os.stat fs (Py.strip a)) as [|[t d|]] eqn:Es; try discriminate.
    destruct (add_file_time _ _ _ _ _ _ _ Es E) as (m & Hm & Ht).
    destruct (IH _ _ Hl H) as (ms & Hms & Hall).
    exists (m :: ms). split.
    + rewrite Hms, Hm, <- app_assoc. reflexivity.
    + constructor; [eauto | exact Hall].
Qed.

End Times.

(** X14.  The times [list] shows for an archive [create] has made of
    regular files: no source was last changed before 1980, and a
    source with a time stamp of the calendar is listed with that
    time, the seconds rounded down to an even number.  (The sources
    are those of the file system once the archive has been
    opened.) *)
Theorem list_times_after_create {host : Platform} fs filename source root overwrite r fs' :
  zip.create fs filename source root overwrite = (Ok r, fs') ->
  zip.status r = "ok" ->
  Forall (fun item => Os.path.isfile fs item = true) (sources_of source) ->
  exists fs1 zf entries,
    Zipfile.ZipFile_write fs (Py.strip filename) (zip.mode_of overwrite) = Ok (fs1, zf) /\
    zip.list fs' filename = Ok (zip.Response "ok" (Py.strip filename) (Some entries)) /\
    Forall2 (fun item e =>
               exists y mo d h mi s data,
                 Os.stat fs1 item = inr (File (y, mo, d, h, mi, s) data) /\
                 (1980 <= y)%Z /\
                 (calendar (y, mo, d, h, mi, s) ->
                  zip.Entry.modified e
                  = zip._formateDateTime (y, mo, d, h, mi, 2 * (s / 2))%Z))
      (sources_of source) entries.
Proof.
  intros Hc Hst Hfiles.
  destruct (create_ok_inv _ _ _ _ _ _ _ Hc Hst)
    as (fs1 & target & zf' & cnt & _ & Ho & Hw & -> & _).
  pose proof (open_write_extends _ _ _ _ _ Ho) as Hx.
  assert (Hfiles1 : Forall (fun item => Os.path.isfile fs1 item = true) (sources_of source)).
  { eapply Forall_impl; [|exact Hfiles]. intros a. apply isfile_extends, Hx. }
  destruct (add_files_times _ _ _ _ _ Hfiles1 Hw) as (ms & Hms & Hall). simpl in Hms.
  pose proof (add_sources_fp _ _ _ _ _ _ Hw) as Hfp. simpl in Hfp.
  destruct (close_after_open _ _ _ _ _ zf' Ho Hfp) as [Hstat _].
  eexists fs1, _, (map zip.entry_of ms). unfold Zipfile.ZipFile_write. rewrite Ho.
  split; [reflexivity|]. split.
  - unfold zip.list, Zipfile.ZipFile_read. rewrite Hstat, Hms. reflexivity.
  - fold (sources_of source) in Hall. clear - Hall.
    induction Hall as [|item m l ms' (t & data & Hs & Ht) _ IH]; simpl; constructor;
      [|exact IH].
    destruct t as [[[[[y mo] d] h] mi] s]. exists y, mo, d, h, mi, s, data.
    split; [exact Hs|]. split.
    + unfold Zipfile.header_time in Ht. destruct (Z.ltb_spec y 1980); [discriminate | lia].
    + intros Hcal. rewrite (header_time_calendar _ _ _ _ _ _ Hcal) in Ht.
      injection Ht as Ht. unfold zip.entry_of. simpl. now rewrite <- Ht.
Qed.

Lemma list_times_after_create_witness :
  exists fs1 zf entries,
    Zipfile.ZipFile_write (host := sample_host) sample_fs "/tmp/out.zip" Zipfile.mode_w
    = Ok (fs1, zf) /\
    zip.list (host := sample_host)
      (snd (zip.create (host := sample_host) sample_fs "/tmp/out.zip"
              "/data/a.txt; /data/sub/b.txt" "/data/" 1))
      "/tmp/out.zip"
    = Ok (zip.Response "ok" "/tmp/out.zip" (Some entries)) /\
    Forall2 (fun item e =>
               exists y mo d h mi s data,
                 Os.stat fs1 item = inr (File (y, mo, d, h, mi, s) data) /\
                 (1980 <= y)%Z /\
                 (calendar (y, mo, d, h, mi, s) ->
                  zip.Entry.modified e
                  = zip._formateDateTime (y, mo, d, h, mi, 2 * (s / 2))%Z))
      ["/data/a.txt"; "/data/sub/b.txt"] entries.
Proof.
  apply (list_times_after_create (host := sample_host) sample_fs "/tmp/out.zip"
           "/data/a.txt; /data/sub/b.txt" "/data/" 1
           (zip.Response "ok" "2 files written to archive /tmp/out.zip" None)).
  - vm_compute. reflexivity.
  - reflexivity.
  - vm_compute. repeat constructor.
Defined.

(** X15.  A source last changed before 1980 cannot be archived: when
    the sources exist, the archive has been opened and the first
    source is such a regular file, [create] returns the status
    ["error"] with the message of the library, and the target is
    left as an archive without members. *)
Theorem create_source_before_1980 {host : Platform}
    fs filename source root overwrite fs1 target old rest y mo d h mi s data name :
  Zipfile.open_write fs (Py.strip filename) (zip.mode_of overwrite) = inr (fs1, target) ->
  sources_of source = old :: rest ->
  Forall (fun item => Os.path.exists_ fs item = true) (old :: rest) ->
  Os.stat fs1 old = inr (File (y, mo, d, h, mi, s) data) ->
  (y < 1980)%Z ->
  arcname root old = Ok name ->
  exists fs',
    zip.create fs filename source root overwrite
    = (Ok (zip.Response "error" "ZIP does not support timestamps before 1980" None), fs') /\
    Os.stat fs' (Py.strip filename) = inr (File clock (Zip [])).
Proof.
  intros Ho Hsrc Hex Hs Hy Hname.
  assert (Hcheck : zip.check_sources fs (Py.split ";" source) = None).
  { apply check_sources_pass. fold (sources_of source). now rewrite Hsrc. }
  unfold sources_of in Hsrc.
  destruct (Py.split ";" source) as [|a l] eqn:Esplit; [discriminate|].
  simpl in Hsrc. injection Hsrc as Ha Hl.
  set (zf0 := {| Zipfile.zf_filename := Py.strip filename; Zipfile.fp := target;
                 Zipfile.filelist := [] |}).
  assert (Hw : for_each (zip.add_source fs1 root) (a :: l) (zf0, 0)
               = ((zf0, 0),
                  Some (OtherError "ZIP does not support timestamps before 1980"))).
  { simpl. unfold zip.add_source, Os.path.isfile. rewrite Ha, Hs. simpl.
    unfold zip.add_path, Zipfile.write. rewrite Hs. simpl.
    unfold arcname in Hname. rewrite Hname. unfold Zipfile.header_time.
    destruct (Z.ltb_spec y 1980); [reflexivity | lia]. }
  destruct (close_after_open _ _ _ _ _ zf0 Ho eq_refl) as [Hstat _].
  exists (Zipfile.close fs1 zf0). split; [|exact Hstat].
  unfold zip.create, Zipfile.ZipFile_write. rewrite Esplit, Hcheck, Ho.
  fold zf0. rewrite Hw, respond_create. reflexivity.
Qed.

Lemma create_source_before_1980_witness :
  exists fs',
    zip.create (host := sample_host) dusty_fs "/tmp/out.zip" "/old.txt;/tmp" "/" 0
    = (Ok (zip.Response "error" "ZIP does not support timestamps before 1980" None), fs') /\
    Os.stat fs' "/tmp/out.zip" = inr (File sample_time (Zip [])).
Proof.
  destruct (Zipfile.open_write (host := sample_host) dusty_fs "/tmp/out.zip" Zipfile.mode_x)
    as [e|[fs1 target]] eqn:Ho; [discriminate|].
  pose proof Ho as Ho'. vm_compute in Ho'. injection Ho' as Hfs1 Htarget.
  apply (create_source_before_1980 (host := sample_host) dusty_fs "/tmp/out.zip"
           "/old.txt;/tmp" "/" 0%Z fs1 target "/old.txt" ["/tmp"]
           1979%Z 12%Z 31%Z 23%Z 59%Z 58%Z (Raw [Byte.x68]) "old.txt").
  - exact Ho.
  - vm_compute. reflexivity.
  - vm_compute. repeat constructor.
  - rewrite <- Hfs1. vm_compute. reflexivity.
  - lia.
  - vm_compute. reflexivity.
Defined.

(** ** A target that ends in a separator *)

Lemma drop_trailing_snoc l name :
  name <> "" -> Zipfile.drop_trailing (l ++ [name; ""]) = (l ++ [name])%list.
Proof.
  intros Hn. induction l as [|c l IH]; simpl.
  - destruct (String.eqb_spec name ""); [contradiction | reflexivity].
  - rewrite IH. now destruct l.
Qed.

Lemma open_write_separator {host : Platform} root dir name m t es :
  Os.stat root dir = inr (Dir t es) -> good_name name = true ->
  Zipfile.open_write root (dir ++ "/" ++ name ++ "/") m = inl Os.EISDIR.
Proof.
  intros Hdir Hk. destruct (good_name_inv _ Hk) as (Hpl & Hsl & Hz).
  assert (Hcomps : Py.split "/" (dir ++ "/" ++ name ++ "/")
                   = (Py.split "/" dir ++ [name; ""])%list).
  { change (dir ++ "/" ++ name ++ "/") with (dir ++ String "/" (name ++ String "/" "")).
    now rewrite split_append, split_trailing, (split_single _ _ Hsl). }
  unfold Os.stat in Hdir.
  destruct (String.eqb dir ""); [discriminate|].
  destruct (Py.mem Ascii.zero dir) eqn:Hzd; [discriminate|].
  destruct (Os.descend root [] (Py.split "/" dir)) as [e|cur] eqn:Ed; [discriminate|].
  destruct (find root (rev cur)) as [n|] eqn:Ecur; [|discriminate].
  inversion Hdir; subst.
  assert (Hp : String.eqb (dir ++ "/" ++ name ++ "/") "" = false) by apply append_nonempty.
  assert (Hzp : Py.mem Ascii.zero (dir ++ "/" ++ name ++ "/") = false).
  { rewrite mem_append, Hzd. simpl. rewrite mem_append, Hz. reflexivity. }
  unfold Zipfile.open_write. rewrite Hp, Hzp, Hcomps.
  change (Py.split "/" dir ++ [name; ""])%list
    with (Py.split "/" dir ++ [name] ++ [""])%list at 1.
  rewrite app_assoc, last_last. cbn [String.eqb].
  rewrite (drop_trailing_snoc _ _ (plain_nonempty _ Hpl)).
  destruct (Py.split "/" dir ++ [name])%list as [|c cs] eqn:E;
    [now destruct (Py.split "/" dir)|].
  rewrite <- E, removelast_last, last_last, Ed, Ecur, Hpl. reflexivity.
Qed.

(** X16.  A target that ends in a separator is refused as a
    directory: when the sources exist and the target is a good name
    in an existing directory, followed by a separator, [create]
    returns the status ["error"] with the text of the library's
    [IsADirectoryError], whatever the overwrite flag and whether the
    name is taken or free, and nothing is written. *)
Theorem create_target_ends_in_separator {host : Platform}
    fs filename dir name source root overwrite t es :
  Py.strip filename = dir ++ "/" ++ name ++ "/" ->
  Os.stat fs dir = inr (Dir t es) -> good_name name = true ->
  Forall (fun item => Os.path.exists_ fs item = true) (sources_of source) ->
  zip.create fs filename source root overwrite
  = (Ok (zip.Response "error"
           (Zipfile.OSError_text 21 "Is a directory" (dir ++ "/" ++ name ++ "/")) None), fs).
Proof.
  intros Hf Hdir Hk Hsrc.
  pose proof (open_write_separator fs dir name (zip.mode_of overwrite) t es Hdir Hk) as Ho.
  rewrite <- Hf in Ho.
  rewrite (create_not_opened _ _ _ _ _ _ (check_sources_pass _ _ Hsrc) Ho), respond_create.
  now rewrite Hf.
Qed.

Lemma create_target_ends_in_separator_witness :
  zip.create (host := sample_host) sample_fs "/tmp/out/ " "/data/a.txt" "/data/" 0
  = (Ok (zip.Response "error" "[Errno 21] Is a directory: '/tmp/out/'" None), sample_fs).
Proof.
  apply (create_target_ends_in_separator (host := sample_host) sample_fs "/tmp/out/ "
           "/tmp" "out" "/data/a.txt" "/data/" 0%Z sample_time []).
  - reflexivity.
  - reflexivity.
  - reflexivity.
  - vm_compute. repeat constructor.
Defined.

(** * Replacing an archive *)


